(** * Ledger, quantity sizer, statistics and backtest runner of the
      backtesting tool, embedded from the Python sources.

    Python [Decimal] values are embedded as exact rationals ([Q]); two
    decimals are compared with [==] as Python compares them by value.
    [quantize] is the only place where rounding happens, exactly as in the
    source, where every [quantize] call names its rounding mode. *)

From Stdlib Require Import ZArith QArith Qround Qabs Qminmax Lqa List Lia Bool String.
Import ListNotations.
Open Scope Q_scope.

(** ** Decimal arithmetic *)

Module Dec.

(** The three rounding modes of the [decimal] module that the sources use. *)
Inductive rounding : Type :=
| ROUND_HALF_UP   (* nearest, ties away from zero *)
| ROUND_UP        (* away from zero *)
| ROUND_DOWN.     (* toward zero *)

(** Integer rounding of a rational in each mode. *)
Definition round_half_up (x : Q) : Z :=
  if Qlt_le_dec x 0 then (- Qfloor (- x + (1 # 2)))%Z else Qfloor (x + (1 # 2)).

Definition round_up (x : Q) : Z :=
  if Qlt_le_dec x 0 then Qfloor x else Qceiling x.

Definition round_down (x : Q) : Z :=
  if Qlt_le_dec x 0 then Qceiling x else Qfloor x.

Definition round_int (m : rounding) (x : Q) : Z :=
  match m with
  | ROUND_HALF_UP => round_half_up x
  | ROUND_UP => round_up x
  | ROUND_DOWN => round_down x
  end.

(** [ten_pow d] is [10 ** d]. *)
Definition ten_pow (d : nat) : Z := Z.pow 10 (Z.of_nat d).

(** [x.quantize(Decimal(10) ** -d, rounding=m)]. *)
Definition quantize_to (d : nat) (m : rounding) (x : Q) : Q :=
  inject_Z (round_int m (x * inject_Z (ten_pow d))) / inject_Z (ten_pow d).

(** [x.quantize(Decimal('0.00000001'), rounding=m)]. *)
Definition quantize (m : rounding) (x : Q) : Q := quantize_to 8 m x.


(** Python's [max(a, b)] on decimals: [b] only when it is strictly larger. *)
Definition py_max (a b : Q) : Q := if Qlt_le_dec a b then b else a.

(** A decimal with at most eight fractional digits. *)
Definition is_q8 (x : Q) : Prop :=
  exists n : Z, x == inject_Z n / inject_Z (ten_pow 8).

End Dec.
Import Dec.

(** ** Data model (models.py, enums.py) *)

Inductive TradeAction : Type := BUY | SELL | HOLD | SHORT_SELL | COVER_SHORT.

Inductive PositionSide : Type := LONG | SHORT.

(** One entry of [long_positions].  The dictionaries store decimals as
    strings; [str] and [Decimal] are inverse to each other, so the entry
    holds the decimal itself. *)
Record LongLot : Type := mkLongLot {
  long_price : Q;
  long_quantity : Q;
  long_total_amount : Q;
  long_open_time : nat
}.

(** One entry of [short_positions]; it has the extra key ["margin_used"]. *)
Record ShortLot : Type := mkShortLot {
  short_price : Q;
  short_quantity : Q;
  short_total_amount : Q;
  short_margin_used : Q;
  short_open_time : nat
}.

(** The dictionary returned by [calculate_trading_fees]. *)
Record Fees : Type := mkFees {
  commission : Q;
  tax : Q;
  fee_total : Q     (* key 'total_fees' *)
}.

Record VirtualAccount : Type := mkAccount {
  initial_balance : Q;
  current_balance : Q;
  stock_price : Q;
  stock_quantity : Q;
  stock_market_value : Q;
  total_value : Q;
  position_side : PositionSide;
  margin_used : Q;
  short_avg_price : Q;
  short_total_cost : Q;
  short_positions : list ShortLot;
  long_positions : list LongLot;
  available_balance : Q;
  commission_rate_buy : Q;
  commission_rate_sell : Q;
  tax_rate : Q;
  min_commission : Q;
  total_fees : Q;
  updated_at : nat
}.

(** Attribute assignment [account.f = v], one setter per assigned field. *)
Definition set_current_balance (v : Q) (a : VirtualAccount) : VirtualAccount :=
  mkAccount (initial_balance a) v (stock_price a) (stock_quantity a)
    (stock_market_value a) (total_value a) (position_side a) (margin_used a)
    (short_avg_price a) (short_total_cost a) (short_positions a)
    (long_positions a) (available_balance a) (commission_rate_buy a)
    (commission_rate_sell a) (tax_rate a) (min_commission a) (total_fees a)
    (updated_at a).

Definition set_stock_price (v : Q) (a : VirtualAccount) : VirtualAccount :=
  mkAccount (initial_balance a) (current_balance a) v (stock_quantity a)
    (stock_market_value a) (total_value a) (position_side a) (margin_used a)
    (short_avg_price a) (short_total_cost a) (short_positions a)
    (long_positions a) (available_balance a) (commission_rate_buy a)
    (commission_rate_sell a) (tax_rate a) (min_commission a) (total_fees a)
    (updated_at a).

Definition set_stock_quantity (v : Q) (a : VirtualAccount) : VirtualAccount :=
  mkAccount (initial_balance a) (current_balance a) (stock_price a) v
    (stock_market_value a) (total_value a) (position_side a) (margin_used a)
    (short_avg_price a) (short_total_cost a) (short_positions a)
    (long_positions a) (available_balance a) (commission_rate_buy a)
    (commission_rate_sell a) (tax_rate a) (min_commission a) (total_fees a)
    (updated_at a).

Definition set_stock_market_value (v : Q) (a : VirtualAccount) : VirtualAccount :=
  mkAccount (initial_balance a) (current_balance a) (stock_price a)
    (stock_quantity a) v (total_value a) (position_side a) (margin_used a)
    (short_avg_price a) (short_total_cost a) (short_positions a)
    (long_positions a) (available_balance a) (commission_rate_buy a)
    (commission_rate_sell a) (tax_rate a) (min_commission a) (total_fees a)
    (updated_at a).

Definition set_total_value (v : Q) (a : VirtualAccount) : VirtualAccount :=
  mkAccount (initial_balance a) (current_balance a) (stock_price a)
    (stock_quantity a) (stock_market_value a) v (position_side a)
    (margin_used a) (short_avg_price a) (short_total_cost a)
    (short_positions a) (long_positions a) (available_balance a)
    (commission_rate_buy a) (commission_rate_sell a) (tax_rate a)
    (min_commission a) (total_fees a) (updated_at a).

Definition set_position_side (v : PositionSide) (a : VirtualAccount) : VirtualAccount :=
  mkAccount (initial_balance a) (current_balance a) (stock_price a)
    (stock_quantity a) (stock_market_value a) (total_value a) v
    (margin_used a) (short_avg_price a) (short_total_cost a)
    (short_positions a) (long_positions a) (available_balance a)
    (commission_rate_buy a) (commission_rate_sell a) (tax_rate a)
    (min_commission a) (total_fees a) (updated_at a).

Definition set_margin_used (v : Q) (a : VirtualAccount) : VirtualAccount :=
  mkAccount (initial_balance a) (current_balance a) (stock_price a)
    (stock_quantity a) (stock_market_value a) (total_value a)
    (position_side a) v (short_avg_price a) (short_total_cost a)
    (short_positions a) (long_positions a) (available_balance a)
    (commission_rate_buy a) (commission_rate_sell a) (tax_rate a)
    (min_commission a) (total_fees a) (updated_at a).

Definition set_short_avg_price (v : Q) (a : VirtualAccount) : VirtualAccount :=
  mkAccount (initial_balance a) (current_balance a) (stock_price a)
    (stock_quantity a) (stock_market_value a) (total_value a)
    (position_side a) (margin_used a) v (short_total_cost a)
    (short_positions a) (long_positions a) (available_balance a)
    (commission_rate_buy a) (commission_rate_sell a) (tax_rate a)
    (min_commission a) (total_fees a) (updated_at a).

Definition set_short_total_cost (v : Q) (a : VirtualAccount) : VirtualAccount :=
  mkAccount (initial_balance a) (current_balance a) (stock_price a)
    (stock_quantity a) (stock_market_value a) (total_value a)
    (position_side a) (margin_used a) (short_avg_price a) v
    (short_positions a) (long_positions a) (available_balance a)
    (commission_rate_buy a) (commission_rate_sell a) (tax_rate a)
    (min_commission a) (total_fees a) (updated_at a).

Definition set_short_positions (v : list ShortLot) (a : VirtualAccount) : VirtualAccount :=
  mkAccount (initial_balance a) (current_balance a) (stock_price a)
    (stock_quantity a) (stock_market_value a) (total_value a)
    (position_side a) (margin_used a) (short_avg_price a)
    (short_total_cost a) v (long_positions a) (available_balance a)
    (commission_rate_buy a) (commission_rate_sell a) (tax_rate a)
    (min_commission a) (total_fees a) (updated_at a).

Definition set_long_positions (v : list LongLot) (a : VirtualAccount) : VirtualAccount :=
  mkAccount (initial_balance a) (current_balance a) (stock_price a)
    (stock_quantity a) (stock_market_value a) (total_value a)
    (position_side a) (margin_used a) (short_avg_price a)
    (short_total_cost a) (short_positions a) v (available_balance a)
    (commission_rate_buy a) (commission_rate_sell a) (tax_rate a)
    (min_commission a) (total_fees a) (updated_at a).

Definition set_available_balance (v : Q) (a : VirtualAccount) : VirtualAccount :=
  mkAccount (initial_balance a) (current_balance a) (stock_price a)
    (stock_quantity a) (stock_market_value a) (total_value a)
    (position_side a) (margin_used a) (short_avg_price a)
    (short_total_cost a) (short_positions a) (long_positions a) v
    (commission_rate_buy a) (commission_rate_sell a) (tax_rate a)
    (min_commission a) (total_fees a) (updated_at a).

Definition set_total_fees (v : Q) (a : VirtualAccount) : VirtualAccount :=
  mkAccount (initial_balance a) (current_balance a) (stock_price a)
    (stock_quantity a) (stock_market_value a) (total_value a)
    (position_side a) (margin_used a) (short_avg_price a)
    (short_total_cost a) (short_positions a) (long_positions a)
    (available_balance a) (commission_rate_buy a) (commission_rate_sell a)
    (tax_rate a) (min_commission a) v (updated_at a).

Definition set_updated_at (v : nat) (a : VirtualAccount) : VirtualAccount :=
  mkAccount (initial_balance a) (current_balance a) (stock_price a)
    (stock_quantity a) (stock_market_value a) (total_value a)
    (position_side a) (margin_used a) (short_avg_price a)
    (short_total_cost a) (short_positions a) (long_positions a)
    (available_balance a) (commission_rate_buy a) (commission_rate_sell a)
    (tax_rate a) (min_commission a) (total_fees a) v.

(** The [stock_quantity] validator of [VirtualAccount]: the side a quantity
    stands for. *)
Definition _update_position_side (v : Q) : PositionSide :=
  if Qlt_le_dec 0 v then LONG
  else if Qlt_le_dec v 0 then SHORT
  else LONG.

(** ** Fee model and ledger (trading_service.py) *)

(** [calculate_trading_fees(action, quantity, price, fee_config)]; the fee
    configuration is read from the account, as every caller passes it. *)
Definition calculate_trading_fees (action : TradeAction) (quantity price : Q)
    (fee_config : VirtualAccount) : Fees :=
  let trade_amount := quantize ROUND_HALF_UP (quantity * price) in
  let rates :=
    match action with
    | BUY | COVER_SHORT => (commission_rate_buy fee_config, 0)
    | _ => (commission_rate_sell fee_config, tax_rate fee_config)
    end in
  let commission_rate := fst rates in
  let current_tax_rate := snd rates in
  let commission0 := quantize ROUND_HALF_UP (trade_amount * commission_rate) in
  let commission1 := py_max commission0 (min_commission fee_config) in
  let tax1 :=
    match action with
    | SELL | SHORT_SELL => quantize ROUND_HALF_UP (trade_amount * current_tax_rate)
    | _ => 0
    end in
  mkFees commission1 tax1 (commission1 + tax1).

(** The [ValueError]s raised by the ledger, one per [raise] statement. *)
Inductive ValueError : Type :=
| InsufficientFunds      (* BUY: balance below amount plus fees *)
| OverSell               (* SELL: more than the position *)
| InsufficientMargin     (* SHORT_SELL: margin headroom too small *)
| OverCover.             (* COVER_SHORT: more than the short position *)

(** How a call ended.  The account is a mutable object: whatever the call
    assigned before a [raise] stays assigned, so every call returns the
    account as it left it together with its outcome. *)
Inductive outcome : Type :=
| Done
| Raised (e : ValueError).

(** FIFO closing of long lots, the [for pos in positions] loop of SELL. *)
Fixpoint close_long_positions (positions : list LongLot) (remaining_quantity : Q)
    : list LongLot :=
  match positions with
  | [] => []
  | pos :: rest =>
      if Qlt_le_dec 0 remaining_quantity then
        let pos_quantity := long_quantity pos in
        let pos_price := long_price pos in
        if Qlt_le_dec remaining_quantity pos_quantity then
          let remaining_pos_quantity := pos_quantity - remaining_quantity in
          mkLongLot pos_price remaining_pos_quantity
            (pos_price * remaining_pos_quantity) (long_open_time pos)
          :: close_long_positions rest 0
        else
          close_long_positions rest (remaining_quantity - pos_quantity)
      else
        pos :: close_long_positions rest remaining_quantity
  end.

(** FIFO closing of short lots, the loop of [_update_short_positions] for
    COVER_SHORT; returns the lots kept, the new total cost and the margin
    released. *)
Fixpoint close_short_positions (positions : list ShortLot)
    (remaining_quantity new_total_cost released_margin : Q)
    : list ShortLot * Q * Q :=
  match positions with
  | [] => ([], new_total_cost, released_margin)
  | pos :: rest =>
      if Qlt_le_dec 0 remaining_quantity then
        let pos_quantity := short_quantity pos in
        let pos_price := short_price pos in
        let pos_margin := short_margin_used pos in
        if Qlt_le_dec remaining_quantity pos_quantity then
          let remaining_pos_quantity := pos_quantity - remaining_quantity in
          let '(kept, cost, released) :=
            close_short_positions rest 0
              (new_total_cost - pos_price * remaining_quantity)
              (released_margin + pos_margin * remaining_quantity / pos_quantity) in
          (mkShortLot pos_price remaining_pos_quantity
             (pos_price * remaining_pos_quantity)
             (pos_price * remaining_pos_quantity) (short_open_time pos) :: kept,
           cost, released)
        else
          close_short_positions rest (remaining_quantity - pos_quantity)
            (new_total_cost - pos_price * pos_quantity)
            (released_margin + pos_margin)
      else
        let '(kept, cost, released) :=
          close_short_positions rest remaining_quantity new_total_cost
            released_margin in
        (pos :: kept, cost, released)
  end.

(** [_update_short_positions(account, price, quantity, action)]: the account
    with its [short_positions] updated, and the triple it returns. *)
Definition _update_short_positions (account : VirtualAccount) (price quantity : Q)
    (action : TradeAction) (now : nat) : VirtualAccount * (Q * Q * Q) :=
  let short_quantity_ := Qabs (stock_quantity account) in
  let current_total_cost := short_total_cost account in
  let current_avg_price := short_avg_price account in
  let released_margin := 0 in
  match action with
  | SHORT_SELL =>
      let new_total_cost := current_total_cost + price * quantity in
      let new_total_quantity := short_quantity_ + quantity in
      let new_avg_price :=
        if Qlt_le_dec 0 new_total_quantity
        then new_total_cost / new_total_quantity else 0 in
      let account1 :=
        set_short_positions
          (short_positions account ++
             [mkShortLot price quantity (price * quantity) (price * quantity) now])
          account in
      (account1, (new_total_cost, new_avg_price, released_margin))
  | COVER_SHORT =>
      let '(kept, new_total_cost, released) :=
        close_short_positions (short_positions account) quantity
          current_total_cost released_margin in
      let account1 := set_short_positions kept account in
      let new_total_quantity := short_quantity_ - quantity in
      let new_avg_price :=
        if Qlt_le_dec 0 new_total_quantity
        then new_total_cost / new_total_quantity else 0 in
      (account1, (new_total_cost, new_avg_price, released))
  | _ => (account, (current_total_cost, current_avg_price, released_margin))
  end.

(** The action branches of [update_account_for_trade] (the [if action ==
    ...] chain): either a [raise], or the locals [new_balance],
    [new_quantity], [new_margin_used]; in both cases with the account as
    the branch has mutated it so far. *)
Definition trade_branch (account : VirtualAccount) (action : TradeAction)
    (dec_qty dec_price trade_amount total_fees_ : Q) (now : nat)
    : VirtualAccount * (ValueError + (Q * Q * Q)) :=
  match action with
  | BUY =>
      let required_amount := trade_amount + total_fees_ in
      if Qlt_le_dec (current_balance account) required_amount then
        (account, inl InsufficientFunds)
      else
        let new_balance := current_balance account - trade_amount - total_fees_ in
        let new_quantity := stock_quantity account + dec_qty in
        let new_margin_used := 0 in
        let account1 :=
          set_long_positions
            (long_positions account ++
               [mkLongLot dec_price dec_qty trade_amount now]) account in
        (account1, inr (new_balance, new_quantity, new_margin_used))
  | SELL =>
      let new_balance := current_balance account + trade_amount - total_fees_ in
      let new_quantity := stock_quantity account - dec_qty in
      if Qlt_le_dec new_quantity 0 then
        (account, inl OverSell)
      else
        let new_margin_used := 0 in
        let account1 :=
          set_long_positions
            (close_long_positions (long_positions account) dec_qty) account in
        (account1, inr (new_balance, new_quantity, new_margin_used))
  | SHORT_SELL =>
      let account1 :=
        if Qlt_le_dec (stock_quantity account) 0 then
          let current_market_value := stock_quantity account * dec_price in
          let current_margin_used := quantize ROUND_UP (Qabs current_market_value) in
          set_margin_used current_margin_used account
        else account in
      let margin_requirement := trade_amount in
      let available_funds := available_balance account1 - margin_used account1 in
      let required_funds := margin_requirement + total_fees_ in
      if Qlt_le_dec available_funds required_funds then
        (account1, inl InsufficientMargin)
      else
        let new_balance := current_balance account1 + trade_amount - total_fees_ in
        let new_quantity := stock_quantity account1 - dec_qty in
        let new_margin_used := margin_used account1 + margin_requirement in
        let '(account2, (new_total_cost, new_avg_price, _)) :=
          _update_short_positions account1 dec_price dec_qty SHORT_SELL now in
        let account3 := set_short_total_cost new_total_cost account2 in
        let account4 := set_short_avg_price new_avg_price account3 in
        let account5 := set_margin_used new_margin_used account4 in
        (account5, inr (new_balance, new_quantity, new_margin_used))
  | COVER_SHORT =>
      if Qlt_le_dec 0 (stock_quantity account + dec_qty) then
        (account, inl OverCover)
      else
        let new_balance := current_balance account - trade_amount - total_fees_ in
        let new_quantity := stock_quantity account + dec_qty in
        let '(account2, (new_total_cost, new_avg_price, released_margin)) :=
          _update_short_positions account dec_price dec_qty COVER_SHORT now in
        let account3 := set_short_total_cost new_total_cost account2 in
        let account4 := set_short_avg_price new_avg_price account3 in
        let new_margin_used := py_max 0 (margin_used account4 - released_margin) in
        (account4, inr (new_balance, new_quantity, new_margin_used))
  | HOLD =>
      let new_balance := current_balance account in
      let new_quantity := stock_quantity account in
      let new_margin_used :=
        if Qlt_le_dec new_quantity 0
        then quantize ROUND_HALF_UP (Qabs (new_quantity * dec_price))
        else quantize ROUND_HALF_UP 0 in
      (account, inr (new_balance, new_quantity, new_margin_used))
  end.

(** The final block of [update_account_for_trade], from the quantization of
    [stock_quantity] to the floor of [available_balance].  The floating
    profit computed there only feeds a log line and is not part of the
    account. *)
Definition commit_account (account : VirtualAccount) (action : TradeAction)
    (dec_price new_balance new_quantity : Q) (now : nat) : VirtualAccount :=
  let a1 := set_stock_quantity (quantize ROUND_HALF_UP new_quantity) account in
  let a2 := set_position_side LONG a1 in
  let a3 := if Qlt_le_dec (stock_quantity a2) 0
            then set_position_side SHORT a2 else a2 in
  let a4 := match action with
            | HOLD => a3
            | _ => set_current_balance
                     (py_max 0 (quantize ROUND_HALF_UP new_balance)) a3
            end in
  let a5 := set_updated_at now a4 in
  let a6 := set_stock_price (quantize ROUND_HALF_UP dec_price) a5 in
  let a7 := set_stock_market_value
              (quantize ROUND_HALF_UP (stock_quantity a6 * dec_price)) a6 in
  let a8 := if Qlt_le_dec (stock_quantity a7) 0
            then set_margin_used
                   (quantize ROUND_HALF_UP (Qabs (stock_market_value a7))) a7
            else set_margin_used (quantize ROUND_HALF_UP 0) a7 in
  let a9 := set_total_value
              (quantize ROUND_HALF_UP
                 (current_balance a8 + stock_market_value a8)) a8 in
  let a10 := if Qlt_le_dec (stock_quantity a9) 0
             then set_available_balance
                    (quantize ROUND_DOWN
                       (current_balance a9 - Qabs (stock_market_value a9))) a9
             else set_available_balance
                    (quantize ROUND_DOWN (current_balance a9)) a9 in
  if Qlt_le_dec (available_balance a10) 0
  then set_available_balance 0 a10 else a10.

(** [update_account_for_trade(account, action, quantity, price, fees)].
    [fees] is [None] for a missing or empty dictionary; [now] is the clock
    reading used for [open_time] and [updated_at]. *)
Definition update_account_for_trade (account : VirtualAccount)
    (action : TradeAction) (quantity price : Q) (fees : option Fees)
    (now : nat) : VirtualAccount * outcome :=
  let total_fees_ := match fees with Some f => fee_total f | None => 0 end in
  let dec_qty := quantity in
  let dec_price := price in
  let trade_amount := quantize ROUND_HALF_UP (dec_qty * dec_price) in
  let account1 :=
    match fees with
    | Some _ => set_total_fees (total_fees account + total_fees_) account
    | None => account
    end in
  match trade_branch account1 action dec_qty dec_price trade_amount total_fees_ now with
  | (account2, inl e) => (account2, Raised e)
  | (account2, inr (new_balance, new_quantity, _)) =>
      (commit_account account2 action dec_price new_balance new_quantity now, Done)
  end.

(** ** Quantity sizer (trade_quantity_calculator.py) *)

(** The methods of [TradeQuantityCalculator]; the object's two attributes
    [account] and [price] are the first two arguments.  Python raises on a
    division by a zero price; the statements below take a positive price. *)
Module TradeQuantityCalculator.

Definition calculate_max_direct_buy_quantity (account : VirtualAccount)
    (price : Q) (available_funds : option Q) : Q :=
  let current_available_funds :=
    match available_funds with
    | Some f => f
    | None => available_balance account
    end in
  let estimated_max_qty := quantize ROUND_UP (current_available_funds / price) in
  let estimated_fees := calculate_trading_fees BUY estimated_max_qty price account in
  let estimated_total_fees := fee_total estimated_fees in
  let total_reserve_fees := estimated_total_fees + min_commission account in
  let final_usable_funds := current_available_funds - total_reserve_fees in
  let max_buy_qty := quantize ROUND_DOWN (final_usable_funds / price) in
  py_max 0 max_buy_qty.

Definition calculate_max_direct_sell_quantity (account : VirtualAccount)
    (price : Q) : Q :=
  let max_sell_qty := stock_quantity account in
  if Qlt_le_dec 0 max_sell_qty then max_sell_qty else 0.

Definition calculate_max_direct_short_sell_quantity (account : VirtualAccount)
    (price : Q) : Q :=
  let current_available_funds := available_balance account - margin_used account in
  let estimated_max_qty := quantize ROUND_UP (current_available_funds / price) in
  let estimated_fees :=
    calculate_trading_fees SHORT_SELL estimated_max_qty price account in
  let estimated_total_fees := fee_total estimated_fees in
  let total_reserve_fees := estimated_total_fees + min_commission account in
  let final_usable_funds := current_available_funds - total_reserve_fees in
  let max_short_qty := quantize ROUND_DOWN (final_usable_funds / price) in
  py_max 0 max_short_qty.

Definition calculate_max_direct_cover_short_quantity (account : VirtualAccount)
    (price : Q) : Q :=
  if Qlt_le_dec (stock_quantity account) 0
  then Qabs (stock_quantity account) else 0.

End TradeQuantityCalculator.
Import TradeQuantityCalculator.

(** ** Sample data *)

(** A fresh account: 100,000 in cash, flat, default fee schedule. *)
Definition sample_account : VirtualAccount :=
  mkAccount 100000 100000 0 0 0 100000 LONG 0 0 0 [] [] 100000
    (1 # 1000) (1 # 1000) (1 # 1000) 5 0 0%nat.

(** The sample account after a short sale of one unit at 100. *)
Definition short_account : VirtualAccount :=
  fst (update_account_for_trade sample_account SHORT_SELL 1 100 None 0%nat).

(** ** Statistics (backtest_utils.py) *)

(** [calculate_max_drawdown] converts the values to [float]; the embedding
    computes with exact rationals instead, an idealisation of binary64
    arithmetic.  The result is rendered by [to_dec(max_dd, 6)]. *)
Module BacktestUtils.







End BacktestUtils.

(** ** Backtest runner (backtesting_processor.py, routes/task.py) *)

(** The rows a task owns in the database are the [Task] itself, its
    account and its trade records.  The decision source
    [make_decision_with_agent] (agent, validation and trade execution) and
    the market data are collaborators: they are parameters of the runner.
    Timestamps are natural numbers. *)
Module BacktestProcessor.

Inductive TaskStatus : Type :=
| PENDING | RUNNING | PAUSED | CANCELLED | COMPLETED | FAILED.

Record Task : Type := mkTask {
  status : TaskStatus;
  processed_items : nat;
  total_items : nat;
  error_message : option string
}.

Record TradeRecord : Type := mkTrade {
  trade_action : TradeAction;
  trade_quantity : Q;
  trade_price : Q;
  trade_time : nat
}.

(** The ledger of a task: its account and the trades recorded for it. *)
Record Ledger : Type := mkLedger {
  account : VirtualAccount;
  trades : list TradeRecord
}.

(** What the session holds: the task row and the ledger. *)
Record Store : Type := mkStore {
  task : Task;
  ledger : Ledger
}.

(** One call of [make_decision_with_agent]: it raises, or returns the pair
    [(decision, decision_id)], either of which may be [None]. *)
Inductive attempt : Type :=
| Raises
| Returns (decision : option TradeAction) (decision_id : option string).

(** The test [decision is not None and decision_id is not None]. *)
Definition decided (a : attempt) : bool :=
  match a with
  | Returns (Some _) (Some _) => true
  | _ => false
  end.

(** A request that another thread writes to the task row through the API. *)
Inductive request : Type := Pause | Stop.

(** [pause_task] and [stop_task] of routes/task.py, on the task row. *)
Definition pause_task (t : Task) : Task :=
  match status t with
  | RUNNING => mkTask PAUSED (processed_items t) (total_items t) (error_message t)
  | _ => t
  end.

Definition stop_task (t : Task) : Task :=
  match status t with
  | RUNNING | PENDING | PAUSED =>
      mkTask CANCELLED (processed_items t) (total_items t) (error_message t)
  | _ => t
  end.

Definition apply_request (r : option request) (t : Task) : Task :=
  match r with
  | Some Pause => pause_task t
  | Some Stop => stop_task t
  | None => t
  end.

Definition set_status (s : TaskStatus) (t : Task) : Task :=
  mkTask s (processed_items t) (total_items t) (error_message t).

Definition set_processed_items (n : nat) (t : Task) : Task :=
  mkTask (status t) n (total_items t) (error_message t).

Definition set_total_items (n : nat) (t : Task) : Task :=
  mkTask (status t) (processed_items t) n (error_message t).

Definition set_error_message (m : option string) (t : Task) : Task :=
  mkTask (status t) (processed_items t) (total_items t) m.

(** [_reset_account]: balance, position, margin and lots go back to the
    initial state. *)
Definition _reset_account (a : VirtualAccount) (now : nat) : VirtualAccount :=
  let a1 := set_current_balance (initial_balance a) a in
  let a2 := set_available_balance (initial_balance a1) a1 in
  let a3 := set_stock_quantity 0 a2 in
  let a4 := set_stock_market_value 0 a3 in
  let a5 := set_total_value (initial_balance a4) a4 in
  let a6 := set_position_side LONG a5 in
  let a7 := set_margin_used 0 a6 in
  let a8 := set_short_avg_price 0 a7 in
  let a9 := set_short_total_cost 0 a8 in
  let a10 := set_short_positions [] a9 in
  let a11 := set_long_positions [] a10 in
  set_updated_at now a11.

Section Runner.

(** The collaborators: the decision source, the filtered decision
    timestamps of the task and the prices preloaded for them. *)
Variable make_decision_with_agent : Ledger -> nat -> Q -> Ledger * attempt.
Variable trading_dates : list nat.
Variable price_data : nat -> option Q.

(** The requests seen at each status poll: [requests i] is written to the
    task row before the poll that precedes item [i]. *)
Variable requests : nat -> option request.

(** [for retry in range(max_retries)]: the ledger after the attempts and
    the attempts made, in order. *)
Fixpoint decision_retries (retries : nat) (l : Ledger) (decision_date : nat)
    (current_price : Q) : Ledger * list attempt :=
  match retries with
  | O => (l, [])
  | S k =>
      let '(l1, a) := make_decision_with_agent l decision_date current_price in
      if decided a then (l1, [a])
      else
        let '(l2, more) := decision_retries k l1 decision_date current_price in
        (l2, a :: more)
  end.

Definition max_retries : nat := 3.

Definition _execute_single_decision (l : Ledger) (decision_date : nat)
    : Ledger * list attempt :=
  match price_data decision_date with
  | None => (l, [])
  | Some current_price =>
      decision_retries max_retries l decision_date current_price
  end.

(** [_check_task_status] at the poll before item [i]: the task row is read
    again, with whatever another thread wrote to it. *)
Definition _check_task_status (i : nat) (s : Store) : Store * bool :=
  let t := apply_request (requests i) (task s) in
  let s1 := mkStore t (ledger s) in
  match status t with
  | CANCELLED | PAUSED => (s1, false)
  | _ => (s1, true)
  end.

(** The loop [for i, dt in enumerate(trading_dates[start_index:],
    start=start_index)]. *)
Fixpoint backtest_loop (dates : list nat) (i : nat) (s : Store) : Store :=
  match dates with
  | [] => s
  | dt :: rest =>
      let '(s1, go) := _check_task_status i s in
      if go then
        let l2 := fst (_execute_single_decision (ledger s1) dt) in
        let s2 := mkStore (set_processed_items (S i) (task s1)) l2 in
        backtest_loop rest (S i) s2
      else s1
  end.

Definition _execute_backtest (s : Store) : Store :=
  let original_status := status (task s) in
  let start_index :=
    match original_status with
    | PAUSED => processed_items (task s)
    | _ => O
    end in
  let t1 := set_status RUNNING (task s) in
  let t2 :=
    match original_status with
    | RUNNING | PAUSED => t1
    | _ => set_processed_items O t1
    end in
  let t3 := set_error_message None t2 in
  backtest_loop (skipn start_index trading_dates) start_index
    (mkStore t3 (ledger s)).

(** [_prepare_account]: trades are deleted and the account is reset,
    unless the task is resuming from PAUSED. *)
Definition _prepare_account (s : Store) (now : nat) : Store :=
  match status (task s) with
  | PENDING | FAILED | RUNNING =>
      mkStore (task s) (mkLedger (_reset_account (account (ledger s)) now) [])
  | _ => s
  end.

Definition _prepare_backtest_data (s : Store) : Store :=
  mkStore (set_total_items (List.length trading_dates) (task s)) (ledger s).

Definition _finalize_backtest (s : Store) : Store :=
  match status (task s) with
  | CANCELLED | PAUSED => s
  | _ => mkStore (set_status COMPLETED (task s)) (ledger s)
  end.

Definition _handle_execution_error (s : Store) (e : string) : Store :=
  mkStore (set_error_message (Some e) (set_status FAILED (task s))) (ledger s).

(** [execute]: initialisation (which rejects a task that is neither
    PENDING, RUNNING, PAUSED nor FAILED), account, data, loop,
    settlement. *)
Definition execute (s : Store) (now : nat) : Store :=
  match status (task s) with
  | CANCELLED | COMPLETED => _handle_execution_error s "invalid task status"%string
  | _ =>
      _finalize_backtest
        (_execute_backtest (_prepare_backtest_data (_prepare_account s now)))
  end.

End Runner.

(** No request from another thread. *)
Definition no_requests : nat -> option request := fun _ => None.


End BacktestProcessor.

(** ** The direct-buy size in the words of the specification *)

Module SizerSpec.

(** Round up, respectively down, to eight decimals. *)
Definition ceil8 (x : Q) : Q :=
  inject_Z (Qceiling (x * inject_Z (ten_pow 8))) / inject_Z (ten_pow 8).

Definition floor8 (x : Q) : Q :=
  inject_Z (Qfloor (x * inject_Z (ten_pow 8))) / inject_Z (ten_pow 8).

(** [feeModel(action, qty, price)]: the total fee of the fee model. *)
Definition feeModel (account : VirtualAccount) (action : TradeAction)
    (qty price : Q) : Q :=
  fee_total (calculate_trading_fees action qty price account).

(** [max(0, floor8((availableCash - (feeModel(BUY, ceil8(availableCash /
    price), price) + minCommission)) / price))]. *)
Definition max_direct_buy (account : VirtualAccount) (price : Q) : Q :=
  let availableCash := available_balance account in
  let estimate := ceil8 (availableCash / price) in
  let fee := feeModel account BUY estimate price in
  let reserve := fee + min_commission account in
  let usable := availableCash - reserve in
  Qmax 0 (floor8 (usable / price)).

End SizerSpec.

(** ** The maximum drawdown in the words of the specification *)

Module StatsSpec.




End StatsSpec.

(** ** Further ledger and sizer functions *)

(** Python's [min(a, b)] on decimals: [b] only when it is strictly smaller. *)
Definition py_min (a b : Q) : Q := if Qlt_le_dec b a then b else a.

(** [calculate_profit_loss(account, current_price)]: amount and percent. *)
Definition calculate_profit_loss (account : VirtualAccount) (current_price : Q)
    : Q * Q :=
  if Qeq_dec (initial_balance account) 0 then
    (quantize ROUND_HALF_UP 0, quantize ROUND_HALF_UP 0)
  else
    let current_market_value :=
      quantize ROUND_HALF_UP (stock_quantity account * current_price) in
    let current_total :=
      quantize ROUND_HALF_UP (current_balance account + current_market_value) in
    let profit_loss :=
      quantize ROUND_HALF_UP (current_total - initial_balance account) in
    let profit_loss_percent :=
      quantize ROUND_HALF_UP (profit_loss / initial_balance account * 100) in
    (profit_loss, profit_loss_percent).

(** The reverse sizes and the dispatcher of [TradeQuantityCalculator]. *)
Module ReverseSizer.

Definition calculate_max_reverse_short_quantity (account : VirtualAccount)
    (price : Q) : Q :=
  if Qlt_le_dec 0 (stock_quantity account) then
    let long_quantity := stock_quantity account in
    let close_long_fees := calculate_trading_fees SELL long_quantity price account in
    let close_long_total_fees := fee_total close_long_fees in
    let close_long_proceeds :=
      quantize ROUND_DOWN (long_quantity * price - close_long_total_fees) in
    let available_after_close := available_balance account + close_long_proceeds in
    let usable_for_short := available_after_close in
    let estimated_short_max_qty := quantize ROUND_UP (usable_for_short / price) in
    let estimated_short_fees :=
      calculate_trading_fees SHORT_SELL estimated_short_max_qty price account in
    let total_reserve_fees :=
      fee_total estimated_short_fees + min_commission account in
    let final_usable_funds := usable_for_short - total_reserve_fees in
    let max_reverse_short_qty :=
      quantize ROUND_DOWN (final_usable_funds / price) + stock_quantity account in
    py_max 0 max_reverse_short_qty
  else calculate_max_direct_short_sell_quantity account price.

Definition calculate_max_reverse_buy_quantity (account : VirtualAccount)
    (price : Q) : Q :=
  if Qlt_le_dec (stock_quantity account) 0 then
    let short_quantity_ := Qabs (stock_quantity account) in
    let close_short_fees :=
      calculate_trading_fees COVER_SHORT short_quantity_ price account in
    let close_short_total_fees := fee_total close_short_fees in
    let close_short_cost :=
      quantize ROUND_UP (short_quantity_ * price + close_short_total_fees) in
    let available_after_close :=
      quantize ROUND_DOWN (current_balance account - close_short_cost) in
    if Qlt_le_dec (current_balance account) close_short_cost then 0
    else
      let usable_for_buy :=
        quantize ROUND_DOWN (available_after_close - min_commission account) in
      let max_direct_buy_qty :=
        calculate_max_direct_buy_quantity account price (Some usable_for_buy) in
      let max_reverse_buy_qty := short_quantity_ + max_direct_buy_qty in
      py_max 0 max_reverse_buy_qty
  else calculate_max_direct_buy_quantity account price None.

(** [calculate_max_trade_quantity(base_action)]; it falls off its end, that
    is returns [None], for HOLD. *)
Definition calculate_max_trade_quantity (account : VirtualAccount) (price : Q)
    (base_action : TradeAction) : option Q :=
  match base_action with
  | SHORT_SELL | SELL => Some (calculate_max_reverse_short_quantity account price)
  | BUY | COVER_SHORT => Some (calculate_max_reverse_buy_quantity account price)
  | HOLD => None
  end.

End ReverseSizer.
Import ReverseSizer.

(** [validate_trade(account, action, quantity, price)]. *)
Definition validate_trade (account : VirtualAccount) (action : TradeAction)
    (quantity price : Q) : bool :=
  match action with
  | HOLD => true
  | _ =>
      if Qlt_le_dec 0 price then
        if Qlt_le_dec 0 quantity then
          match calculate_max_trade_quantity account price action with
          | Some max_trade_qty =>
              if Qlt_le_dec max_trade_qty quantity then false else true
          | None => false
          end
        else false
      else false
  end.

(** [_map_decision_to_actions(current_qty, llm_act, qty)] of
    [execute_decision], for the five actions of [TradeAction]. *)
Definition _map_decision_to_actions (current_qty : Q) (llm_act : TradeAction)
    (qty : Q) : list (TradeAction * Q) :=
  match llm_act with
  | HOLD => [(HOLD, 0)]
  | _ =>
      if Qlt_le_dec 0 current_qty then
        match llm_act with
        | BUY | COVER_SHORT => [(BUY, qty)]
        | _ =>
            let sell_qty := py_min qty current_qty in
            let short_qty := qty - sell_qty in
            (SELL, sell_qty)
            :: (if Qlt_le_dec 0 short_qty then [(SHORT_SELL, short_qty)] else [])
        end
      else if Qlt_le_dec current_qty 0 then
        match llm_act with
        | BUY | COVER_SHORT =>
            let cover_qty := py_min qty (Qabs current_qty) in
            let buy_qty := qty - cover_qty in
            (COVER_SHORT, cover_qty)
            :: (if Qlt_le_dec 0 buy_qty then [(BUY, buy_qty)] else [])
        | _ => [(SHORT_SELL, qty)]
        end
      else
        match llm_act with
        | BUY => [(BUY, qty)]
        | SHORT_SELL => [(SHORT_SELL, qty)]
        | _ => [(HOLD, 0)]
        end
  end.


(** The attributes of a [datetime] that the date filter reads, with the
    day it belongs to. *)
Record datetime : Type := mkDatetime {
  day : nat;
  hour : Z;
  minute : Z
}.

(** [BacktestUtils.filter_dates_by_interval(dates, time_granularity,
    decision_interval)]; [None] is the [ZeroDivisionError] of [%]. *)
Fixpoint filter_dates_by_interval (dates : list datetime)
    (time_granularity : string) (decision_interval : Z)
    : option (list datetime) :=
  match dates with
  | [] => Some []
  | dt :: rest =>
      if String.eqb time_granularity "daily" then
        option_map (cons dt)
          (filter_dates_by_interval rest time_granularity decision_interval)
      else if String.eqb time_granularity "hourly" then
        if Z.eqb decision_interval 0 then None
        else if Z.eqb (hour dt mod decision_interval) 0 then
          option_map (cons dt)
            (filter_dates_by_interval rest time_granularity decision_interval)
        else filter_dates_by_interval rest time_granularity decision_interval
      else
        let total_minutes := (hour dt * 60 + minute dt)%Z in
        if Z.eqb decision_interval 0 then None
        else if Z.eqb (total_minutes mod decision_interval) 0 then
          option_map (cons dt)
            (filter_dates_by_interval rest time_granularity decision_interval)
        else filter_dates_by_interval rest time_granularity decision_interval
  end.

(** ** Auxiliary notions and sample data for the statements *)

(** The margin that the SHORT_SELL branch subtracts from the available
    balance: [account.margin_used] as it stands after the branch's opening
    re-mark, which overwrites it with the position valued at the trade
    price (rounded up) when the account is already short. *)
Definition margin_basis (account : VirtualAccount) (price : Q) : Q :=
  if Qlt_le_dec (stock_quantity account) 0
  then quantize ROUND_UP (Qabs (stock_quantity account * price))
  else margin_used account.

(** An account with 280 in cash that sold one unit short at 100: cash 380,
    margin 100, available balance 280. *)
Definition stale_short_account : VirtualAccount :=
  fst (update_account_for_trade
         (mkAccount 280 280 0 0 0 280 LONG 0 0 0 [] [] 280
            (1 # 1000) (1 # 1000) (1 # 1000) 5 0 0%nat)
         SHORT_SELL 1 100 None 0%nat).

(** The signed change of position that an action asks for. *)
Definition signed_quantity (action : TradeAction) (quantity : Q) : Q :=
  match action with
  | BUY | COVER_SHORT => quantity
  | SELL | SHORT_SELL => - quantity
  | HOLD => 0
  end.

(** The change of cash that an action asks for, from the (already
    quantized) trade amount and the total fees. *)
Definition cash_flow (action : TradeAction) (trade_amount fee : Q) : Q :=
  match action with
  | BUY | COVER_SHORT => - trade_amount - fee
  | SELL | SHORT_SELL => trade_amount - fee
  | HOLD => 0
  end.

(** A decision source for the examples: it fails at timestamp 2 and buys
    one unit through the ledger everywhere else. *)
Definition sample_decision_source (l : BacktestProcessor.Ledger) (dt : nat)
    (price : Q) : BacktestProcessor.Ledger * BacktestProcessor.attempt :=
  if Nat.eqb dt 2 then (l, BacktestProcessor.Raises)
  else
    let fees :=
      calculate_trading_fees BUY 1 price (BacktestProcessor.account l) in
    match update_account_for_trade (BacktestProcessor.account l) BUY 1 price
            (Some fees) dt with
    | (a1, Done) =>
        (BacktestProcessor.mkLedger a1
           (BacktestProcessor.trades l ++
              [BacktestProcessor.mkTrade BUY 1 price dt]),
         BacktestProcessor.Returns (Some BUY) (Some "decision"%string))
    | (_, Raised _) =>
        (l, BacktestProcessor.Returns (Some HOLD) (Some "decision"%string))
    end.

(** A pending task on the sample account. *)
Definition sample_store : BacktestProcessor.Store :=
  BacktestProcessor.mkStore
    (BacktestProcessor.mkTask BacktestProcessor.PENDING 0 0 None)
    (BacktestProcessor.mkLedger sample_account []).

(** The quantity held in a list of lots. *)
Definition long_lots_quantity (lots : list LongLot) : Q :=
  fold_right (fun lot acc => long_quantity lot + acc) 0 lots.

Definition short_lots_quantity (lots : list ShortLot) : Q :=
  fold_right (fun lot acc => short_quantity lot + acc) 0 lots.

(** The margin reserved and the cost booked in a list of short lots. *)
Definition short_lots_margin (lots : list ShortLot) : Q :=
  fold_right (fun lot acc => short_margin_used lot + acc) 0 lots.

Definition short_lots_cost (lots : list ShortLot) : Q :=
  fold_right (fun lot acc => short_price lot * short_quantity lot + acc) 0 lots.

(** The fields of an account that are configuration. *)
Definition same_configuration (a b : VirtualAccount) : Prop :=
  initial_balance b = initial_balance a /\
  commission_rate_buy b = commission_rate_buy a /\
  commission_rate_sell b = commission_rate_sell a /\
  tax_rate b = tax_rate a /\
  min_commission b = min_commission a.

(** The total quantity of a list of legs. *)
Definition legs_quantity (legs : list (TradeAction * Q)) : Q :=
  fold_right (fun leg acc => snd leg + acc) 0 legs.

(** A single stop request, seen at the poll before item [k]. *)
Definition stop_at (k : nat) : nat -> option BacktestProcessor.request :=
  fun i => if Nat.eqb i k then Some BacktestProcessor.Stop else None.

(** The test that keeps a timestamp. *)
Definition on_interval (time_granularity : string) (decision_interval : Z)
    (dt : datetime) : bool :=
  if String.eqb time_granularity "daily" then true
  else if String.eqb time_granularity "hourly"
       then Z.eqb (hour dt mod decision_interval) 0
       else Z.eqb ((hour dt * 60 + minute dt) mod decision_interval) 0.

(** ** Facts about the decimal layer *)

Ltac absurd_order :=
  match goal with
  | H1 : ?a < ?b, H2 : ?b <= ?a |- _ =>
      exfalso; apply (Qlt_irrefl a); eapply Qlt_le_trans; eauto
  | H1 : ?a < ?b, H2 : ?b < ?a |- _ =>
      exfalso; apply (Qlt_irrefl a); eapply Qlt_trans; eauto
  end.

Lemma ten_pow_pos (d : nat) : (0 < ten_pow d)%Z.
Proof. unfold ten_pow. apply Z.pow_pos_nonneg; lia. Qed.

Lemma inject_ten_pow_pos (d : nat) : 0 < inject_Z (ten_pow d).
Proof.
  replace 0 with (inject_Z 0) by reflexivity.
  rewrite <- Zlt_Qlt. apply ten_pow_pos.
Qed.

Lemma py_max_ge_l (a b : Q) : a <= py_max a b.
Proof.
  unfold py_max. destruct (Qlt_le_dec a b) as [H | H].
  - apply Qlt_le_weak, H.
  - apply Qle_refl.
Qed.

Lemma py_max_l (a b : Q) : b <= a -> py_max a b = a.
Proof.
  intros H. unfold py_max. destruct (Qlt_le_dec a b) as [H' | H'].
  - exfalso. apply (Qlt_irrefl a). eapply Qlt_le_trans; eauto.
  - reflexivity.
Qed.

Lemma py_max_r (a b : Q) : a < b -> py_max a b = b.
Proof.
  intros H. unfold py_max. destruct (Qlt_le_dec a b) as [H' | H'].
  - reflexivity.
  - exfalso. apply (Qlt_irrefl a). eapply Qlt_le_trans; eauto.
Qed.

(** Scaling by a positive power of ten keeps the sign. *)
Lemma scale_neg (d : nat) (x : Q) : x < 0 -> x * inject_Z (ten_pow d) < 0.
Proof.
  intros H.
  setoid_replace 0 with (0 * inject_Z (ten_pow d)) by ring.
  apply Qmult_lt_compat_r; [apply inject_ten_pow_pos | exact H].
Qed.

Lemma scale_nonneg (d : nat) (x : Q) : 0 <= x -> 0 <= x * inject_Z (ten_pow d).
Proof.
  intros H. apply Qmult_le_0_compat; [exact H |].
  apply Qlt_le_weak, inject_ten_pow_pos.
Qed.

(** A negative rational rounds half-up to a non-positive integer. *)
Lemma round_half_up_neg (x : Q) : x < 0 -> (round_half_up x <= 0)%Z.
Proof.
  intros H. unfold round_half_up.
  destruct (Qlt_le_dec x 0) as [_ | H'].
  - assert (0 <= Qfloor (- x + (1 # 2)))%Z; [| lia].
    change 0%Z with (Qfloor 0). apply Qfloor_resp_le.
    assert (0 < - x) by (apply (Qopp_lt_compat x 0) in H; exact H).
    apply Qlt_le_weak.
    apply (Qlt_trans _ (- x)); [exact H0 |].
    setoid_replace (- x) with (- x + 0) at 1 by ring.
    apply Qplus_lt_r. reflexivity.
  - exfalso. apply (Qlt_irrefl x). eapply Qlt_le_trans; eauto.
Qed.

Lemma quantize_half_up_neg (x : Q) : x < 0 -> quantize ROUND_HALF_UP x <= 0.
Proof.
  intros H. unfold quantize, quantize_to. simpl round_int.
  apply Qle_shift_div_r; [apply inject_ten_pow_pos |].
  setoid_replace (0 * inject_Z (ten_pow 8)) with (inject_Z 0) by ring.
  rewrite <- Zle_Qle. apply round_half_up_neg. apply scale_neg, H.
Qed.

(** Every quantization to eight digits is an eight-digit decimal. *)
Lemma quantize_is_q8 (m : rounding) (x : Q) : is_q8 (quantize m x).
Proof. exists (round_int m (x * inject_Z (ten_pow 8))). reflexivity. Qed.

Lemma zero_is_q8 : is_q8 0.
Proof. exists 0%Z. reflexivity. Qed.

Lemma py_max_is_q8 (a b : Q) : is_q8 a -> is_q8 b -> is_q8 (py_max a b).
Proof. intros Ha Hb. unfold py_max. destruct (Qlt_le_dec a b); assumption. Qed.

Lemma Qfloor_plus_half (k : Z) : Qfloor (inject_Z k + (1 # 2)) = k.
Proof.
  unfold Qfloor, Qplus, inject_Z. cbn.
  symmetry. apply (Z.div_unique _ _ _ 1); lia.
Qed.

(** Rounding only depends on the value of a decimal. *)
Lemma round_int_comp (m : rounding) (x y : Q) :
  x == y -> round_int m x = round_int m y.
Proof.
  intros H. destruct m; cbn [round_int];
    unfold round_half_up, round_up, round_down, Qceiling;
    destruct (Qlt_le_dec x 0) as [Hx | Hx], (Qlt_le_dec y 0) as [Hy | Hy];
    try (rewrite H in Hx; absurd_order);
    try (f_equal; apply Qfloor_comp; rewrite H; reflexivity);
    try (apply Qfloor_comp; rewrite H; reflexivity).
Qed.

Lemma round_int_inject (m : rounding) (k : Z) : round_int m (inject_Z k) = k.
Proof.
  destruct m; cbn [round_int];
    unfold round_half_up, round_up, round_down;
    destruct (Qlt_le_dec (inject_Z k) 0);
    rewrite ?Qfloor_Z, ?Qceiling_Z, ?Qfloor_plus_half; try reflexivity.
  rewrite (Qfloor_comp _ (inject_Z (- k) + (1 # 2))).
  - rewrite Qfloor_plus_half. lia.
  - rewrite inject_Z_opp. reflexivity.
Qed.

Lemma quantize_comp (m : rounding) (x y : Q) :
  x == y -> quantize m x = quantize m y.
Proof.
  intros H. unfold quantize, quantize_to.
  rewrite (round_int_comp m (x * inject_Z (ten_pow 8)) (y * inject_Z (ten_pow 8)));
    [reflexivity | rewrite H; reflexivity].
Qed.

(** Quantizing an eight-digit decimal changes nothing, in every mode. *)
Lemma quantize_exact (m : rounding) (x : Q) : is_q8 x -> quantize m x == x.
Proof.
  intros [n Hn]. unfold quantize, quantize_to.
  rewrite (round_int_comp m _ (inject_Z n)), round_int_inject.
  - symmetry. exact Hn.
  - rewrite Hn. field. 
    intro Hz. pose proof (inject_ten_pow_pos 8) as Hp. rewrite Hz in Hp.
    apply (Qlt_irrefl 0), Hp.
Qed.

Lemma is_q8_comp (x y : Q) : x == y -> is_q8 x -> is_q8 y.
Proof. intros H [n Hn]. exists n. rewrite <- H. exact Hn. Qed.

Lemma is_q8_plus (x y : Q) : is_q8 x -> is_q8 y -> is_q8 (x + y).
Proof.
  intros [n Hn] [k Hk]. exists (n + k)%Z.
  rewrite Hn, Hk, inject_Z_plus. field.
  intro Hz. pose proof (inject_ten_pow_pos 8) as Hp. rewrite Hz in Hp.
  apply (Qlt_irrefl 0), Hp.
Qed.

Lemma is_q8_opp (x : Q) : is_q8 x -> is_q8 (- x).
Proof.
  intros [n Hn]. exists (- n)%Z.
  rewrite Hn, inject_Z_opp. field.
  intro Hz. pose proof (inject_ten_pow_pos 8) as Hp. rewrite Hz in Hp.
  apply (Qlt_irrefl 0), Hp.
Qed.

Lemma is_q8_minus (x y : Q) : is_q8 x -> is_q8 y -> is_q8 (x - y).
Proof. intros Hx Hy. apply is_q8_plus; [exact Hx | apply is_q8_opp, Hy]. Qed.

Lemma is_q8_abs (x : Q) : is_q8 x -> is_q8 (Qabs x).
Proof.
  intros Hx. destruct (Qlt_le_dec x 0) as [H | H].
  - apply (is_q8_comp (- x)); [| apply is_q8_opp, Hx].
    symmetry. apply Qabs_neg. lra.
  - apply (is_q8_comp x); [| exact Hx].
    symmetry. apply Qabs_pos. exact H.
Qed.

(** ** Facts about the ledger *)

(** Case analysis on every comparison met in the goal. *)
Ltac split_cmp :=
  repeat match goal with
         | |- context [Qlt_le_dec ?a ?b] => destruct (Qlt_le_dec a b)
         end.

(** Projections through the setters of the account record. *)
Ltac ledger_simpl :=
  cbn [initial_balance current_balance stock_price stock_quantity
       stock_market_value total_value position_side margin_used
       short_avg_price short_total_cost short_positions long_positions
       available_balance commission_rate_buy commission_rate_sell tax_rate
       min_commission total_fees updated_at
       set_current_balance set_stock_price set_stock_quantity
       set_stock_market_value set_total_value set_position_side
       set_margin_used set_short_avg_price set_short_total_cost
       set_short_positions set_long_positions set_available_balance
       set_total_fees set_updated_at fst snd] in *.

(** Case analysis on the comparisons of the goal, innermost first. *)
Ltac ledger_cases :=
  repeat (ledger_simpl;
          match goal with
          | |- context [Qlt_le_dec ?a ?b] =>
              lazymatch a with
              | context [Qlt_le_dec _ _] => fail
              | _ => idtac
              end;
              destruct (Qlt_le_dec a b)
          end);
  ledger_simpl.

Lemma update_position_side_spec (v : Q) :
  _update_position_side v = if Qlt_le_dec v 0 then SHORT else LONG.
Proof. unfold _update_position_side. split_cmp; try reflexivity; absurd_order. Qed.

Section Commit.
Variables (account : VirtualAccount) (action : TradeAction).
Variables (dec_price new_balance new_quantity : Q) (now : nat).

Let committed :=
  commit_account account action dec_price new_balance new_quantity now.
Let quantity' := quantize ROUND_HALF_UP new_quantity.
Let balance' :=
  match action with
  | HOLD => current_balance account
  | _ => py_max 0 (quantize ROUND_HALF_UP new_balance)
  end.
Let value' := quantize ROUND_HALF_UP (quantity' * dec_price).

Ltac commit_tac :=
  unfold committed, commit_account, value', balance', quantity';
  cbv zeta; destruct action; ledger_cases;
  try reflexivity; try absurd_order.

Lemma commit_stock_quantity : stock_quantity committed = quantity'.
Proof. commit_tac. Qed.

Lemma commit_position_side :
  position_side committed = if Qlt_le_dec quantity' 0 then SHORT else LONG.
Proof. commit_tac. Qed.

Lemma commit_current_balance : current_balance committed = balance'.
Proof. commit_tac. Qed.

Lemma commit_stock_market_value : stock_market_value committed = value'.
Proof. commit_tac. Qed.

Lemma commit_margin_used :
  margin_used committed =
  if Qlt_le_dec quantity' 0
  then quantize ROUND_HALF_UP (Qabs value')
  else quantize ROUND_HALF_UP 0.
Proof. commit_tac. Qed.

Lemma commit_total_value :
  total_value committed = quantize ROUND_HALF_UP (balance' + value').
Proof. commit_tac. Qed.

Lemma commit_available_balance :
  available_balance committed =
  let raw :=
    if Qlt_le_dec quantity' 0
    then quantize ROUND_DOWN (balance' - Qabs value')
    else quantize ROUND_DOWN balance' in
  if Qlt_le_dec raw 0 then 0 else raw.
Proof. commit_tac. Qed.

Lemma commit_total_fees : total_fees committed = total_fees account.
Proof. commit_tac. Qed.

Lemma commit_short_positions :
  short_positions committed = short_positions account.
Proof. commit_tac. Qed.
End Commit.

(** How a call of [update_account_for_trade] that returns was computed. *)
Lemma update_done_inv account action quantity price fees now account' :
  update_account_for_trade account action quantity price fees now
    = (account', Done) ->
  exists account2 new_balance new_quantity new_margin_used,
    trade_branch
      match fees with
      | Some f => set_total_fees (total_fees account + fee_total f) account
      | None => account
      end action quantity price (quantize ROUND_HALF_UP (quantity * price))
      match fees with Some f => fee_total f | None => 0 end now
    = (account2, inr (new_balance, new_quantity, new_margin_used)) /\
    account' = commit_account account2 action price new_balance new_quantity now.
Proof.
  unfold update_account_for_trade. cbv zeta.
  destruct fees as [f |];
    match goal with
    | |- context [trade_branch ?a ?b ?c ?d ?e ?g ?h] =>
        destruct (trade_branch a b c d e g h) as [a2 [err | [[nb nq] nm]]]
    end; intros H; inversion H; subst; eauto 10.
Qed.

(** A raised call leaves the account as the action branch left it. *)
Lemma update_raised_inv account action quantity price fees now account' e :
  update_account_for_trade account action quantity price fees now
    = (account', Raised e) ->
  trade_branch
    match fees with
    | Some f => set_total_fees (total_fees account + fee_total f) account
    | None => account
    end action quantity price (quantize ROUND_HALF_UP (quantity * price))
    match fees with Some f => fee_total f | None => 0 end now
  = (account', inl e).
Proof.
  unfold update_account_for_trade. cbv zeta.
  destruct fees as [f |];
    match goal with
    | |- context [trade_branch ?a ?b ?c ?d ?e ?g ?h] =>
        destruct (trade_branch a b c d e g h) as [a2 [err | [[nb nq] nm]]]
    end; intros H; inversion H; subst; reflexivity.
Qed.

(** No action branch touches [total_fees]. *)
Lemma trade_branch_total_fees account action q p amount fee now account' res :
  trade_branch account action q p amount fee now = (account', res) ->
  total_fees account' = total_fees account.
Proof.
  unfold trade_branch, _update_short_positions.
  destruct action; cbv zeta.
  - destruct (Qlt_le_dec _ _); intros H; inversion H; reflexivity.
  - destruct (Qlt_le_dec _ _); intros H; inversion H; reflexivity.
  - intros H; inversion H; reflexivity.
  - destruct (Qlt_le_dec (stock_quantity account) 0);
      destruct (Qlt_le_dec _ _); intros H; inversion H; reflexivity.
  - destruct (Qlt_le_dec _ _); [intros H; inversion H; reflexivity |].
    destruct (close_short_positions _ _ _ _) as [[kept cost] released].
    intros H; inversion H; reflexivity.
Qed.

(** ** The sample scenario *)

(** C2: from an account with cash 100,000 and no position, BUY 1 @ 50,000
    with total fees 50 gives cash 49,950 and quantity 1; SELL 1 @ 55,000
    with total fees 55 then gives cash 104,895, quantity 0 and total value
    104,895. *)
Theorem sample_buy_then_sell (account : VirtualAccount)
    (c1 x1 c2 x2 : Q) (t1 t2 : nat) :
  current_balance account = 100000 ->
  stock_quantity account = 0 ->
  let r1 := update_account_for_trade account BUY 1 50000
              (Some (mkFees c1 x1 50)) t1 in
  let r2 := update_account_for_trade (fst r1) SELL 1 55000
              (Some (mkFees c2 x2 55)) t2 in
  snd r1 = Done /\
  current_balance (fst r1) == 49950 /\
  stock_quantity (fst r1) == 1 /\
  snd r2 = Done /\
  current_balance (fst r2) == 104895 /\
  stock_quantity (fst r2) == 0 /\
  total_value (fst r2) == 104895.
Proof.
  intros Hcash Hqty. destruct account. cbn in Hcash, Hqty. subst.
  repeat split; vm_compute; reflexivity.
Qed.

Lemma sample_buy_then_sell_witness :
  let r1 := update_account_for_trade sample_account BUY 1 50000
              (Some (mkFees 50 0 50)) 1%nat in
  let r2 := update_account_for_trade (fst r1) SELL 1 55000
              (Some (mkFees 55 0 55)) 2%nat in
  snd r1 = Done /\
  current_balance (fst r1) == 49950 /\
  stock_quantity (fst r1) == 1 /\
  snd r2 = Done /\
  current_balance (fst r2) == 104895 /\
  stock_quantity (fst r2) == 0 /\
  total_value (fst r2) == 104895.
Proof.
  apply (sample_buy_then_sell sample_account 50 0 55 0 1%nat 2%nat);
    reflexivity.
Defined.

(** ** Rejected trades *)

(** Whatever the action, a call given a fee dictionary has added the fee to
    [total_fees] by the time it raises. *)
Lemma raised_keeps_fee_increment account action quantity price f now account' e :
  update_account_for_trade account action quantity price (Some f) now
    = (account', Raised e) ->
  total_fees account' = total_fees account + fee_total f.
Proof.
  intros H. apply update_raised_inv in H.
  apply trade_branch_total_fees in H. exact H.
Qed.


(** ** Position side *)

(** C6: after every ledger operation that returns (BUY, SELL, SHORT_SELL,
    COVER_SHORT and HOLD), the stored side is SHORT when the stored
    quantity is negative and LONG when it is positive or zero; it is the
    side the [stock_quantity] validator of the model assigns. *)
Theorem side_matches_quantity account action quantity price fees now account' :
  update_account_for_trade account action quantity price fees now
    = (account', Done) ->
  (stock_quantity account' < 0 -> position_side account' = SHORT) /\
  (0 <= stock_quantity account' -> position_side account' = LONG) /\
  position_side account' = _update_position_side (stock_quantity account').
Proof.
  intros H. apply update_done_inv in H.
  destruct H as (a2 & nb & nq & nm & _ & ->).
  rewrite update_position_side_spec.
  rewrite commit_position_side, commit_stock_quantity.
  destruct (Qlt_le_dec (quantize ROUND_HALF_UP nq) 0) as [Hlt | Hle];
    repeat split; intros; try reflexivity; absurd_order.
Qed.

Lemma side_matches_quantity_witness :
  let account' :=
    fst (update_account_for_trade sample_account SHORT_SELL 2 100 None 1%nat) in
  (stock_quantity account' < 0 -> position_side account' = SHORT) /\
  (0 <= stock_quantity account' -> position_side account' = LONG) /\
  position_side account' = _update_position_side (stock_quantity account').
Proof.
  apply (side_matches_quantity sample_account SHORT_SELL 2 100 None 1%nat).
  vm_compute. reflexivity.
Defined.

(** ** Covering a short position *)

(** [update_account_for_trade] for COVER_SHORT, branch by branch. *)
Lemma cover_short_unfold account quantity price fees now :
  let account1 :=
    match fees with
    | Some f => set_total_fees (total_fees account + fee_total f) account
    | None => account
    end in
  let fee := match fees with Some f => fee_total f | None => 0 end in
  let amount := quantize ROUND_HALF_UP (quantity * price) in
  update_account_for_trade account COVER_SHORT quantity price fees now =
  if Qlt_le_dec 0 (stock_quantity account + quantity)
  then (account1, Raised OverCover)
  else
    let upd := _update_short_positions account1 price quantity COVER_SHORT now in
    (commit_account
       (set_short_avg_price (snd (fst (snd upd)))
          (set_short_total_cost (fst (fst (snd upd))) (fst upd)))
       COVER_SHORT price
       (current_balance account - amount - fee)
       (stock_quantity account + quantity) now, Done).
Proof.
  cbv zeta. unfold update_account_for_trade, trade_branch. cbv zeta.
  destruct fees as [f |]; ledger_simpl;
    destruct (Qlt_le_dec 0 (stock_quantity account + quantity)); try reflexivity;
    destruct (_update_short_positions _ _ _ _ _) as [a2 [[c a] rel]];
    reflexivity.
Qed.

(** C3: COVER_SHORT raises exactly when the covered quantity exceeds the
    short position (its absolute value when short, zero otherwise); the
    test does not look at the cash.  When it returns, the committed balance
    is [max(0, cash - qty*price - fees)] (amount and balance quantized to 8
    digits), so that a cost above the cash leaves a balance of 0 and no
    error. *)
Theorem cover_short_only_checks_position account quantity price fees now :
  0 < quantity ->
  let r := update_account_for_trade account COVER_SHORT quantity price fees now in
  let fee := match fees with Some f => fee_total f | None => 0 end in
  let amount := quantize ROUND_HALF_UP (quantity * price) in
  (snd r = Raised OverCover <->
     calculate_max_direct_cover_short_quantity account price < quantity) /\
  (snd r = Done <->
     quantity <= calculate_max_direct_cover_short_quantity account price) /\
  (snd r = Done ->
     current_balance (fst r) =
     py_max 0 (quantize ROUND_HALF_UP (current_balance account - amount - fee))) /\
  (snd r = Done -> current_balance account < amount + fee ->
     current_balance (fst r) = 0).
Proof.
  intros Hq. cbv zeta. rewrite cover_short_unfold. cbv zeta.
  unfold calculate_max_direct_cover_short_quantity.
  destruct (Qlt_le_dec 0 (stock_quantity account + quantity)) as [Hover | Hok];
    cbn [fst snd].
  - repeat split; try discriminate.
    + intros _. destruct (Qlt_le_dec (stock_quantity account) 0) as [Hs | Hs].
      * rewrite Qabs_neg by lra. lra.
      * exact Hq.
    + intros H. exfalso.
      destruct (Qlt_le_dec (stock_quantity account) 0) as [Hs | Hs].
      * rewrite Qabs_neg in H by lra. lra.
      * lra.
  - repeat split; try discriminate; try reflexivity.
    + intros H. exfalso.
      destruct (Qlt_le_dec (stock_quantity account) 0) as [Hs | Hs].
      * rewrite Qabs_neg in H by lra. lra.
      * lra.
    + intros _. destruct (Qlt_le_dec (stock_quantity account) 0) as [Hs | Hs].
      * rewrite Qabs_neg by lra. lra.
      * lra.
    + intros _. rewrite commit_current_balance. reflexivity.
    + intros _ Hdef. rewrite commit_current_balance.
      apply py_max_l. apply quantize_half_up_neg. lra.
Qed.

Lemma cover_short_only_checks_position_witness :
  let r := update_account_for_trade short_account COVER_SHORT 1 200000 None 1%nat in
  let amount := quantize ROUND_HALF_UP (1 * 200000) in
  (snd r = Raised OverCover <->
     calculate_max_direct_cover_short_quantity short_account 200000 < 1) /\
  (snd r = Done <->
     1 <= calculate_max_direct_cover_short_quantity short_account 200000) /\
  (snd r = Done ->
     current_balance (fst r) =
     py_max 0 (quantize ROUND_HALF_UP (current_balance short_account - amount - 0))) /\
  (snd r = Done -> current_balance short_account < amount + 0 ->
     current_balance (fst r) = 0).
Proof.
  apply (cover_short_only_checks_position short_account 1 200000 None 1%nat).
  reflexivity.
Defined.

(** ** Short selling *)

(** [update_account_for_trade] for SHORT_SELL, branch by branch. *)
Lemma short_sell_unfold account quantity price fees now :
  let account1 :=
    match fees with
    | Some f => set_total_fees (total_fees account + fee_total f) account
    | None => account
    end in
  let fee := match fees with Some f => fee_total f | None => 0 end in
  let amount := quantize ROUND_HALF_UP (quantity * price) in
  let basis := margin_basis account price in
  let account_m := set_margin_used basis account1 in
  update_account_for_trade account SHORT_SELL quantity price fees now =
  if Qlt_le_dec (available_balance account - basis) (amount + fee)
  then (account_m, Raised InsufficientMargin)
  else
    let upd := _update_short_positions account_m price quantity SHORT_SELL now in
    (commit_account
       (set_margin_used (basis + amount)
          (set_short_avg_price (snd (fst (snd upd)))
             (set_short_total_cost (fst (fst (snd upd))) (fst upd))))
       SHORT_SELL price
       (current_balance account + amount - fee)
       (stock_quantity account - quantity) now, Done).
Proof.
  cbv zeta. unfold update_account_for_trade, trade_branch, margin_basis.
  cbv zeta.
  destruct fees as [f |]; ledger_simpl;
    destruct (Qlt_le_dec (stock_quantity account) 0); ledger_simpl;
    destruct (Qlt_le_dec _ _); try reflexivity;
    try (destruct account; reflexivity).
Qed.

(** C4, amended: SHORT_SELL returns if and only if
    [available_balance - M >= qty*price + fees], where [M] is the margin
    re-marked at the trade price (the position valued at that price,
    rounded up) when the account is already short, and the stored
    [margin_used] otherwise.  When it returns, cash is
    [max(0, cash + qty*price - fees)], the quantity decreases by [qty], a
    short lot with reserved margin [price*qty] is appended, and
    [margin_used] is recomputed as the absolute market value of the new
    position; for a flat or short account and amounts that need no
    rounding, that is [M + qty*price]. *)
Theorem short_sell_margin_rule account quantity price fees now :
  let r := update_account_for_trade account SHORT_SELL quantity price fees now in
  let fee := match fees with Some f => fee_total f | None => 0 end in
  let amount := quantize ROUND_HALF_UP (quantity * price) in
  let basis := margin_basis account price in
  (snd r = Done <-> amount + fee <= available_balance account - basis) /\
  (snd r = Done ->
     current_balance (fst r) =
       py_max 0 (quantize ROUND_HALF_UP (current_balance account + amount - fee)) /\
     stock_quantity (fst r) =
       quantize ROUND_HALF_UP (stock_quantity account - quantity) /\
     short_positions (fst r) =
       short_positions account ++
       [mkShortLot price quantity (price * quantity) (price * quantity) now] /\
     stock_market_value (fst r) =
       quantize ROUND_HALF_UP (stock_quantity (fst r) * price) /\
     margin_used (fst r) =
       if Qlt_le_dec (stock_quantity (fst r)) 0
       then quantize ROUND_HALF_UP (Qabs (stock_market_value (fst r)))
       else quantize ROUND_HALF_UP 0) /\
  (snd r = Done ->
     stock_quantity account <= 0 -> 0 <= quantity -> 0 <= price ->
     (stock_quantity account == 0 -> margin_used account == 0) ->
     is_q8 (stock_quantity account) -> is_q8 quantity ->
     is_q8 (stock_quantity account * price) -> is_q8 (quantity * price) ->
     margin_used (fst r) == basis + quantity * price).
Proof.
  cbv zeta. rewrite short_sell_unfold. cbv zeta.
  destruct (Qlt_le_dec _ _) as [Hlow | Hok]; cbn [fst snd].
  - repeat split; try discriminate.
    intros H. exfalso. lra.
  - split; [split; [intros _; exact Hok | reflexivity] |].
    split.
    + intros _.
      rewrite commit_current_balance, commit_stock_quantity,
        commit_short_positions, commit_stock_market_value, commit_margin_used.
      unfold _update_short_positions. ledger_simpl.
      repeat split; try reflexivity.
      destruct fees; reflexivity.
    + intros _ Hs Hq Hp Hflat Qs Qq Qsp Qqp.
      rewrite commit_margin_used.
      assert (Hdiff : is_q8 (stock_quantity account - quantity))
        by (apply is_q8_minus; assumption).
      assert (Hval : is_q8 ((stock_quantity account - quantity) * price)).
      { apply (is_q8_comp (stock_quantity account * price - quantity * price));
          [ring | apply is_q8_minus; assumption]. }
      pose proof (quantize_exact ROUND_HALF_UP _ Hdiff) as Eq.
      assert (Ev : quantize ROUND_HALF_UP
                     (quantize ROUND_HALF_UP (stock_quantity account - quantity) * price)
                   == (stock_quantity account - quantity) * price).
      { rewrite (quantize_comp _ _ ((stock_quantity account - quantity) * price))
          by (rewrite Eq; reflexivity).
        apply quantize_exact, Hval. }
      assert (Hsp : stock_quantity account * price <= 0) by nra.
      assert (Hqp : 0 <= quantity * price) by nra.
      unfold margin_basis.
      destruct (Qlt_le_dec (quantize ROUND_HALF_UP (stock_quantity account - quantity)) 0)
        as [Hneg | Hnonneg].
      * rewrite (quantize_comp _ _ (Qabs ((stock_quantity account - quantity) * price)))
          by (rewrite Ev; reflexivity).
        rewrite quantize_exact by (apply is_q8_abs, Hval).
        rewrite Qabs_neg by nra.
        destruct (Qlt_le_dec (stock_quantity account) 0) as [Hshort | Hflat0].
        -- rewrite quantize_exact by (apply is_q8_abs, Qsp).
           rewrite Qabs_neg by exact Hsp. ring.
        -- assert (E0 : stock_quantity account == 0) by lra.
           rewrite (Hflat E0). rewrite E0. ring.
      * rewrite Eq in Hnonneg.
        assert (E0 : stock_quantity account == 0) by lra.
        assert (Eq0 : quantity == 0) by lra.
        rewrite (quantize_exact _ 0 zero_is_q8).
        destruct (Qlt_le_dec (stock_quantity account) 0) as [Hshort | Hflat0];
          [lra |].
        rewrite (Hflat E0), Eq0. ring.
Qed.

(** C4 as stated fails: on an account short one unit with stored margin 100
    and available balance 280, a further short sale of 1 @ 150 passes the
    stated test ([280 - 100 >= 150]) and yet is rejected, because the test
    in the code subtracts the margin re-marked at 150. *)
Lemma short_sell_stored_margin_counterexample :
  let r := update_account_for_trade stale_short_account SHORT_SELL 1 150 None
             1%nat in
  ~ (snd r = Done <->
     quantize ROUND_HALF_UP (1 * 150) + 0 <=
     available_balance stale_short_account - margin_used stale_short_account).
Proof.
  cbv zeta. intros [_ H].
  assert (Hdone : snd (update_account_for_trade stale_short_account
                         SHORT_SELL 1 150 None 1%nat) = Done).
  { apply H. vm_compute. discriminate. }
  vm_compute in Hdone. discriminate.
Qed.

(** ** Quantization of the derived fields *)

(** The locals that a returning action branch hands to the final block. *)
Lemma trade_branch_done_values a action q p amount fee now a2 nb nq nm :
  trade_branch a action q p amount fee now = (a2, inr (nb, nq, nm)) ->
  nq == stock_quantity a + signed_quantity action q /\
  nb == current_balance a + cash_flow action amount fee /\
  current_balance a2 = current_balance a.
Proof.
  unfold trade_branch, _update_short_positions, signed_quantity, cash_flow.
  destruct action; cbv zeta.
  - destruct (Qlt_le_dec _ _); intros H; inversion H; subst; ledger_simpl.
    repeat split; try reflexivity; ring.
  - destruct (Qlt_le_dec _ _); intros H; inversion H; subst; ledger_simpl.
    repeat split; try reflexivity; ring.
  - intros H; inversion H; subst. repeat split; try reflexivity; ring.
  - destruct (Qlt_le_dec (stock_quantity a) 0); ledger_simpl;
      destruct (Qlt_le_dec _ _); intros H; inversion H; subst; ledger_simpl;
      repeat split; try reflexivity; ring.
  - destruct (Qlt_le_dec _ _); [intros H; inversion H |].
    destruct (close_short_positions _ _ _ _) as [[kept cost] released].
    intros H; inversion H; subst; ledger_simpl.
    repeat split; try reflexivity; ring.
Qed.

(** C5, amended: after every ledger operation that returns (HOLD included)
    the quantity is the half-up quantization of the unrounded new quantity;
    cash is [max(0, half-up quantization)] of the old cash plus or minus
    the trade amount and fees, where the trade amount [qty*price] has
    itself been quantized half-up before, and cash is left untouched by
    HOLD; market value, margin and total value are half-up quantizations
    of expressions over the already quantized quantity, cash and market
    value; the available balance is quantized toward zero (ROUND_DOWN) and
    floored at 0.  Provided the cash was an 8-digit decimal before a HOLD,
    all six fields are 8-digit decimals and the available balance equals
    what half-up rounding would give. *)
Theorem ledger_fields_quantized account action quantity price fees now account' :
  update_account_for_trade account action quantity price fees now
    = (account', Done) ->
  let fee := match fees with Some f => fee_total f | None => 0 end in
  let amount := quantize ROUND_HALF_UP (quantity * price) in
  let exposure :=
    if Qlt_le_dec (stock_quantity account') 0
    then current_balance account' - Qabs (stock_market_value account')
    else current_balance account' in
  (stock_quantity account' =
     quantize ROUND_HALF_UP
       (stock_quantity account + signed_quantity action quantity) /\
   current_balance account' =
     match action with
     | HOLD => current_balance account
     | _ => py_max 0 (quantize ROUND_HALF_UP
                        (current_balance account + cash_flow action amount fee))
     end /\
   stock_market_value account' =
     quantize ROUND_HALF_UP (stock_quantity account' * price) /\
   margin_used account' =
     (if Qlt_le_dec (stock_quantity account') 0
      then quantize ROUND_HALF_UP (Qabs (stock_market_value account'))
      else quantize ROUND_HALF_UP 0) /\
   total_value account' =
     quantize ROUND_HALF_UP
       (current_balance account' + stock_market_value account') /\
   available_balance account' =
     (if Qlt_le_dec (quantize ROUND_DOWN exposure) 0
      then 0 else quantize ROUND_DOWN exposure)) /\
  ((action = HOLD -> is_q8 (current_balance account)) ->
   is_q8 (stock_quantity account') /\
   is_q8 (current_balance account') /\
   is_q8 (stock_market_value account') /\
   is_q8 (margin_used account') /\
   is_q8 (available_balance account') /\
   is_q8 (total_value account') /\
   available_balance account' == py_max 0 (quantize ROUND_HALF_UP exposure)).
Proof.
  intros H. apply update_done_inv in H.
  destruct H as (a2 & nb & nq & nm & Hbr & ->).
  apply trade_branch_done_values in Hbr. destruct Hbr as (Hnq & Hnb & Hcash).
  assert (Hcash0 : current_balance a2 = current_balance account)
    by (rewrite Hcash; destruct fees; reflexivity).
  assert (Hsq0 : nq == stock_quantity account + signed_quantity action quantity)
    by (rewrite Hnq; destruct fees; reflexivity).
  assert (Hnb0 : nb == current_balance account
                        + cash_flow action (quantize ROUND_HALF_UP (quantity * price))
                            match fees with Some f => fee_total f | None => 0 end)
    by (rewrite Hnb; destruct fees; reflexivity).
  clear Hnq Hnb Hcash. cbv zeta.
  rewrite commit_stock_quantity, commit_current_balance,
    commit_stock_market_value, commit_margin_used, commit_total_value,
    commit_available_balance.
  cbv zeta. rewrite Hcash0.
  rewrite (quantize_comp _ nq _ Hsq0), (quantize_comp _ nb _ Hnb0).
  set (q' := quantize ROUND_HALF_UP
               (stock_quantity account + signed_quantity action quantity)).
  set (c' := match action with
             | HOLD => current_balance account
             | _ => py_max 0 _
             end).
  set (v' := quantize ROUND_HALF_UP (q' * price)).
  split.
  - repeat split; try reflexivity.
    destruct (Qlt_le_dec q' 0); reflexivity.
  - intros Hhold.
    assert (Qc : is_q8 c').
    { unfold c'. destruct action;
        try (apply py_max_is_q8; [apply zero_is_q8 | apply quantize_is_q8]).
      apply Hhold. reflexivity. }
    assert (Qv : is_q8 v') by apply quantize_is_q8.
    assert (Qe : is_q8 (if Qlt_le_dec q' 0 then c' - Qabs v' else c')).
    { destruct (Qlt_le_dec q' 0); [| exact Qc].
      apply is_q8_minus; [exact Qc | apply is_q8_abs, Qv]. }
    repeat split; try apply quantize_is_q8; try exact Qc.
    + destruct (Qlt_le_dec q' 0); apply quantize_is_q8.
    + destruct (Qlt_le_dec q' 0);
        destruct (Qlt_le_dec _ 0);
        try apply zero_is_q8; apply quantize_is_q8.
    + assert (E : (if Qlt_le_dec q' 0
                   then quantize ROUND_DOWN (c' - Qabs v')
                   else quantize ROUND_DOWN c')
                  = quantize ROUND_DOWN
                      (if Qlt_le_dec q' 0 then c' - Qabs v' else c'))
        by (destruct (Qlt_le_dec q' 0); reflexivity).
      rewrite E.
      set (e := if Qlt_le_dec q' 0 then c' - Qabs v' else c') in *.
      pose proof (quantize_exact ROUND_DOWN e Qe) as Ed.
      pose proof (quantize_exact ROUND_HALF_UP e Qe) as Eh.
      unfold py_max.
      destruct (Qlt_le_dec (quantize ROUND_DOWN e) 0),
               (Qlt_le_dec 0 (quantize ROUND_HALF_UP e)); lra.
Qed.

Lemma ledger_fields_quantized_witness :
  let account' :=
    fst (update_account_for_trade sample_account BUY 2 50 None 1%nat) in
  let amount := quantize ROUND_HALF_UP (2 * 50) in
  let exposure :=
    if Qlt_le_dec (stock_quantity account') 0
    then current_balance account' - Qabs (stock_market_value account')
    else current_balance account' in
  (stock_quantity account' =
     quantize ROUND_HALF_UP
       (stock_quantity sample_account + signed_quantity BUY 2) /\
   current_balance account' =
     py_max 0 (quantize ROUND_HALF_UP
                 (current_balance sample_account + cash_flow BUY amount 0)) /\
   stock_market_value account' =
     quantize ROUND_HALF_UP (stock_quantity account' * 50) /\
   margin_used account' =
     (if Qlt_le_dec (stock_quantity account') 0
      then quantize ROUND_HALF_UP (Qabs (stock_market_value account'))
      else quantize ROUND_HALF_UP 0) /\
   total_value account' =
     quantize ROUND_HALF_UP
       (current_balance account' + stock_market_value account') /\
   available_balance account' =
     (if Qlt_le_dec (quantize ROUND_DOWN exposure) 0
      then 0 else quantize ROUND_DOWN exposure)) /\
  ((BUY = HOLD -> is_q8 (current_balance sample_account)) ->
   is_q8 (stock_quantity account') /\
   is_q8 (current_balance account') /\
   is_q8 (stock_market_value account') /\
   is_q8 (margin_used account') /\
   is_q8 (available_balance account') /\
   is_q8 (total_value account') /\
   available_balance account' == py_max 0 (quantize ROUND_HALF_UP exposure)).
Proof.
  apply (ledger_fields_quantized sample_account BUY 2 50 None 1%nat).
  vm_compute. reflexivity.
Defined.

(** C5 as stated fails: buying 0.00000001 at 50000.5 from a cash of
    100,000 leaves 99999.99949999, because the trade amount 0.000500005 is
    first quantized to 0.00050001; a single final half-up quantization of
    the unrounded [cash - qty*price] would give 99999.99950000. *)
Lemma buy_quantizes_amount_first_counterexample :
  let quantity := 1 # 100000000 in
  let price := 100001 # 2 in
  let r := update_account_for_trade sample_account BUY quantity price None
             1%nat in
  snd r = Done /\
  current_balance (fst r) == 9999999949999 # 100000000 /\
  quantize ROUND_HALF_UP (current_balance sample_account - quantity * price)
    == 9999999950000 # 100000000 /\
  ~ current_balance (fst r)
    == quantize ROUND_HALF_UP (current_balance sample_account - quantity * price).
Proof.
  cbv zeta. repeat split; try (vm_compute; reflexivity).
  vm_compute. discriminate.
Qed.

(** ** Maximum direct-buy quantity *)

Lemma py_max_Qmax (a b : Q) : py_max a b == Qmax a b.
Proof.
  unfold py_max. destruct (Qlt_le_dec a b) as [H | H].
  - symmetry. apply Q.max_r. lra.
  - symmetry. apply Q.max_l. exact H.
Qed.

Lemma quantize_up_ceil8 (x : Q) :
  0 <= x -> quantize ROUND_UP x = SizerSpec.ceil8 x.
Proof.
  intros H. unfold quantize, quantize_to, SizerSpec.ceil8. cbn [round_int].
  unfold round_up.
  destruct (Qlt_le_dec (x * inject_Z (ten_pow 8)) 0) as [Hneg | _];
    [| reflexivity].
  pose proof (scale_nonneg 8 x H). lra.
Qed.

Lemma floor8_neg (x : Q) : x < 0 -> SizerSpec.floor8 x < 0.
Proof.
  intros H. unfold SizerSpec.floor8.
  apply Qlt_shift_div_r; [apply inject_ten_pow_pos |].
  pose proof (scale_neg 8 x H) as Hs.
  pose proof (Qfloor_le (x * inject_Z (ten_pow 8))) as Hf. lra.
Qed.

Lemma quantize_down_neg (x : Q) : x < 0 -> quantize ROUND_DOWN x <= 0.
Proof.
  intros H. unfold quantize, quantize_to. cbn [round_int]. unfold round_down.
  pose proof (scale_neg 8 x H) as Hs.
  destruct (Qlt_le_dec (x * inject_Z (ten_pow 8)) 0) as [_ | Hge]; [| lra].
  apply Qle_shift_div_r; [apply inject_ten_pow_pos |].
  assert (Hc : (Qceiling (x * inject_Z (ten_pow 8)) <= 0)%Z).
  { change 0%Z with (Qceiling 0). apply Qceiling_resp_le. lra. }
  rewrite Zle_Qle in Hc. change (inject_Z 0) with 0 in Hc. lra.
Qed.

Lemma quantize_down_floor8 (x : Q) :
  0 <= x -> quantize ROUND_DOWN x = SizerSpec.floor8 x.
Proof.
  intros H. unfold quantize, quantize_to, SizerSpec.floor8. cbn [round_int].
  unfold round_down.
  destruct (Qlt_le_dec (x * inject_Z (ten_pow 8)) 0) as [Hneg | _];
    [| reflexivity].
  pose proof (scale_nonneg 8 x H). lra.
Qed.

(** Truncation and floor agree once negative results are cut off at 0. *)
Lemma max0_down_floor8 (x : Q) :
  py_max 0 (quantize ROUND_DOWN x) == Qmax 0 (SizerSpec.floor8 x).
Proof.
  destruct (Qlt_le_dec x 0) as [Hneg | Hpos].
  - rewrite py_max_l by (apply quantize_down_neg, Hneg).
    symmetry. apply Q.max_l. pose proof (floor8_neg x Hneg). lra.
  - rewrite quantize_down_floor8 by exact Hpos. apply py_max_Qmax.
Qed.

(** C7: for every account (whose available balance is, as the ledger
    always leaves it, not negative) and every price > 0, the maximum
    direct-buy quantity computed by the sizer equals
    [max(0, floor8((availableCash - (feeModel(BUY, ceil8(availableCash /
    price), price) + minCommission)) / price))]. *)
Theorem max_direct_buy_matches_spec (account : VirtualAccount) (price : Q) :
  0 < price ->
  0 <= available_balance account ->
  calculate_max_direct_buy_quantity account price None
    == SizerSpec.max_direct_buy account price.
Proof.
  intros Hp Ha.
  unfold calculate_max_direct_buy_quantity, SizerSpec.max_direct_buy,
    SizerSpec.feeModel. cbv zeta.
  rewrite quantize_up_ceil8.
  - apply max0_down_floor8.
  - apply Qle_shift_div_l; [exact Hp | lra].
Qed.

Lemma max_direct_buy_matches_spec_witness :
  calculate_max_direct_buy_quantity sample_account 50000 None
    == SizerSpec.max_direct_buy sample_account 50000.
Proof.
  apply (max_direct_buy_matches_spec sample_account 50000).
  - reflexivity.
  - discriminate.
Defined.

(** ** Maximum drawdown *)







(** ** The backtest runner *)

Section RunnerFacts.
Import BacktestProcessor.

Variable oracle : Ledger -> nat -> Q -> Ledger * attempt.
Variable dates : list nat.
Variable prices : nat -> option Q.

Local Abbreviation single := (_execute_single_decision oracle prices).
Local Abbreviation loop := (backtest_loop oracle prices).
Local Abbreviation run := (execute oracle dates prices).



Lemma check_without_request (r : nat -> option request) (i : nat) (s : Store) :
  r i = None -> status (task s) = RUNNING ->
  _check_task_status r i s = (s, true).
Proof.
  intros Hr Hrun. unfold _check_task_status. rewrite Hr.
  cbn [apply_request]. rewrite Hrun. destruct s; reflexivity.
Qed.


(** One item of the loop when the poll lets it through. *)
Lemma loop_step (r : nat -> option request) (dt : nat) (rest : list nat)
    (i : nat) (s : Store) :
  r i = None -> status (task s) = RUNNING ->
  loop r (dt :: rest) i s
  = loop r rest (S i)
      (mkStore (set_processed_items (S i) (task s))
         (fst (single (ledger s) dt))).
Proof.
  intros Hr Hrun. cbn [backtest_loop].
  rewrite check_without_request by assumption. reflexivity.
Qed.

(** Without requests a running task stays running through the whole loop
    and counts every item. *)
Lemma loop_no_requests_task (l : list nat) :
  forall i s,
    status (task s) = RUNNING ->
    let s' := loop no_requests l i s in
    status (task s') = RUNNING /\
    total_items (task s') = total_items (task s) /\
    error_message (task s') = error_message (task s) /\
    processed_items (task s') =
      match l with
      | [] => processed_items (task s)
      | _ => (i + List.length l)%nat
      end.
Proof.
  induction l as [| dt rest IH]; intros i s Hrun; cbv zeta.
  - cbn. auto.
  - rewrite loop_step by (try reflexivity; assumption).
    match goal with
    | |- context [loop no_requests rest (S i) ?s2] =>
        destruct (IH (S i) s2 Hrun) as (H1 & H2 & H3 & H4)
    end.
    cbn [task set_processed_items status total_items error_message
         processed_items] in *.
    repeat split; try assumption.
    rewrite H4. destruct rest; cbn [List.length]; lia.
Qed.

(** Requests that arrive at no poll of the loop do not change it. *)
Lemma loop_quiet (r : nat -> option request) (l : list nat) :
  forall i s,
    status (task s) = RUNNING ->
    (forall j, (i <= j < i + List.length l)%nat -> r j = None) ->
    loop r l i s = loop no_requests l i s.
Proof.
  induction l as [| dt rest IH]; intros i s Hrun Hr; [reflexivity |].
  rewrite !loop_step
    by (try reflexivity; try assumption; apply Hr; cbn [List.length]; lia).
  apply IH; [exact Hrun |].
  intros j Hj. apply Hr. cbn [List.length]. lia.
Qed.



(** The store on which the loop of a fresh run starts. *)
Let start_store (s : Store) (now : nat) : Store :=
  mkStore
    (mkTask RUNNING
       match status (task s) with
       | RUNNING => processed_items (task s)
       | _ => O
       end
       (List.length dates) None)
    (mkLedger (_reset_account (account (ledger s)) now) []).

Lemma run_fresh (r : nat -> option request) (s : Store) (now : nat) :
  status (task s) = PENDING \/ status (task s) = FAILED \/
  status (task s) = RUNNING ->
  run r s now = _finalize_backtest (loop r dates 0 (start_store s now)).
Proof.
  destruct s as [[st pi ti em] l]. cbn [task status].
  intros [-> | [-> | ->]]; reflexivity.
Qed.


Lemma finalize_running (s : Store) :
  status (task s) = RUNNING ->
  status (task (_finalize_backtest s)) = COMPLETED /\
  processed_items (task (_finalize_backtest s)) = processed_items (task s) /\
  ledger (_finalize_backtest s) = ledger s.
Proof.
  intros H. unfold _finalize_backtest. rewrite H. cbn. auto.
Qed.


End RunnerFacts.


(** * Further properties of the code *)

(** ** More facts about quantization *)

Lemma ten_pow_nonzero (d : nat) : ~ inject_Z (ten_pow d) == 0.
Proof.
  intro Hz. pose proof (inject_ten_pow_pos d) as Hp. rewrite Hz in Hp.
  apply (Qlt_irrefl 0), Hp.
Qed.

Lemma round_half_up_mono (x y : Q) :
  x <= y -> (round_half_up x <= round_half_up y)%Z.
Proof.
  intros H. unfold round_half_up.
  destruct (Qlt_le_dec x 0) as [Hx | Hx], (Qlt_le_dec y 0) as [Hy | Hy].
  - apply Z.opp_le_mono. rewrite !Z.opp_involutive.
    apply Qfloor_resp_le. lra.
  - assert (0 <= Qfloor (- x + (1 # 2)))%Z
      by (change 0%Z with (Qfloor 0); apply Qfloor_resp_le; lra).
    assert (0 <= Qfloor (y + (1 # 2)))%Z
      by (change 0%Z with (Qfloor 0); apply Qfloor_resp_le; lra).
    lia.
  - lra.
  - apply Qfloor_resp_le. lra.
Qed.

(** Half-up quantization is monotone. *)
Lemma quantize_half_up_mono (x y : Q) :
  x <= y -> quantize ROUND_HALF_UP x <= quantize ROUND_HALF_UP y.
Proof.
  intros H. unfold quantize, quantize_to. cbn [round_int].
  apply Qmult_le_compat_r.
  - rewrite <- Zle_Qle. apply round_half_up_mono.
    apply Qmult_le_compat_r; [exact H |].
    apply Qlt_le_weak, inject_ten_pow_pos.
  - apply Qinv_le_0_compat. apply Qlt_le_weak, inject_ten_pow_pos.
Qed.

Lemma quantize_zero (m : rounding) : quantize m 0 == 0.
Proof. apply quantize_exact, zero_is_q8. Qed.

Lemma quantize_half_up_nonneg (x : Q) : 0 <= x -> 0 <= quantize ROUND_HALF_UP x.
Proof.
  intros H. rewrite <- (quantize_zero ROUND_HALF_UP) at 1.
  apply quantize_half_up_mono, H.
Qed.

Lemma quantize_down_bounds (x : Q) :
  0 <= x -> 0 <= quantize ROUND_DOWN x /\ quantize ROUND_DOWN x <= x.
Proof.
  intros H. unfold quantize, quantize_to. cbn [round_int]. unfold round_down.
  pose proof (scale_nonneg 8 x H) as Hs.
  pose proof (inject_ten_pow_pos 8) as Hp.
  destruct (Qlt_le_dec (x * inject_Z (ten_pow 8)) 0) as [Hneg | _]; [lra |].
  split.
  - apply Qle_shift_div_l; [exact Hp |].
    setoid_replace (0 * inject_Z (ten_pow 8)) with (inject_Z 0) by ring.
    rewrite <- Zle_Qle. change 0%Z with (Qfloor 0).
    apply Qfloor_resp_le, Hs.
  - apply Qle_shift_div_r; [exact Hp |]. apply Qfloor_le.
Qed.

Lemma quantize_up_ge (x : Q) : 0 <= x -> x <= quantize ROUND_UP x.
Proof.
  intros H. unfold quantize, quantize_to. cbn [round_int]. unfold round_up.
  pose proof (scale_nonneg 8 x H) as Hs.
  pose proof (inject_ten_pow_pos 8) as Hp.
  destruct (Qlt_le_dec (x * inject_Z (ten_pow 8)) 0) as [Hneg | _]; [lra |].
  apply Qle_shift_div_l; [exact Hp |]. apply Qle_ceiling.
Qed.

(** Quantizing a quantized decimal again gives the very same decimal. *)
Lemma quantize_idem (m m' : rounding) (x : Q) :
  quantize m (quantize m' x) = quantize m' x.
Proof.
  unfold quantize, quantize_to at 1.
  rewrite (round_int_comp m _
             (inject_Z (round_int m' (x * inject_Z (ten_pow 8))))).
  - rewrite round_int_inject. reflexivity.
  - unfold quantize_to. field. apply ten_pow_nonzero.
Qed.

(** ** Fees *)

Lemma py_max_ge_r (a b : Q) : b <= py_max a b.
Proof. unfold py_max. destruct (Qlt_le_dec a b); lra. Qed.

(** X1: whatever the action, quantity and price, the commission charged
    is never below the account's minimum commission, the total is the
    commission plus the tax, BUY, COVER_SHORT and HOLD carry no tax, and
    with a minimum commission of at most eight fractional digits the total
    has at most eight as well. *)
Theorem fees_commission_floor (action : TradeAction) (quantity price : Q)
    (account : VirtualAccount) :
  let f := calculate_trading_fees action quantity price account in
  min_commission account <= commission f /\
  fee_total f == commission f + tax f /\
  (action = BUY \/ action = COVER_SHORT \/ action = HOLD ->
   tax f == 0 /\ fee_total f == commission f) /\
  (is_q8 (min_commission account) -> is_q8 (fee_total f)).
Proof.
  cbv zeta. unfold calculate_trading_fees. cbv zeta.
  cbn [commission tax fee_total].
  split; [apply py_max_ge_r |]. split; [apply Qeq_refl |]. split.
  - intros [-> | [-> | ->]]; (split; [apply Qeq_refl | apply Qplus_0_r]).
  - intros Hq. apply is_q8_plus.
    + apply py_max_is_q8; [apply quantize_is_q8 | exact Hq].
    + destruct action; try apply zero_is_q8; apply quantize_is_q8.
Qed.

(** ** The account after a returning call *)

(** Every field the final block assigns, and the fee total, after a call
    that returns. *)
Lemma update_done_fields account action quantity price fees now account' :
  update_account_for_trade account action quantity price fees now
    = (account', Done) ->
  let fee := match fees with Some f => fee_total f | None => 0 end in
  let amount := quantize ROUND_HALF_UP (quantity * price) in
  let q' := quantize ROUND_HALF_UP
              (stock_quantity account + signed_quantity action quantity) in
  let c' := match action with
            | HOLD => current_balance account
            | _ => py_max 0 (quantize ROUND_HALF_UP
                               (current_balance account
                                + cash_flow action amount fee))
            end in
  let v' := quantize ROUND_HALF_UP (q' * price) in
  stock_quantity account' = q' /\
  current_balance account' = c' /\
  stock_market_value account' = v' /\
  position_side account' = (if Qlt_le_dec q' 0 then SHORT else LONG) /\
  margin_used account' =
    (if Qlt_le_dec q' 0 then quantize ROUND_HALF_UP (Qabs v')
     else quantize ROUND_HALF_UP 0) /\
  total_value account' = quantize ROUND_HALF_UP (c' + v') /\
  available_balance account' =
    (let raw := if Qlt_le_dec q' 0
                then quantize ROUND_DOWN (c' - Qabs v')
                else quantize ROUND_DOWN c' in
     if Qlt_le_dec raw 0 then 0 else raw) /\
  total_fees account' =
    match fees with
    | Some f => total_fees account + fee_total f
    | None => total_fees account
    end.
Proof.
  intros H. apply update_done_inv in H.
  destruct H as (a2 & nb & nq & nm & Hbr & ->).
  pose proof (trade_branch_total_fees _ _ _ _ _ _ _ _ _ Hbr) as Hfee.
  apply trade_branch_done_values in Hbr. destruct Hbr as (Hnq & Hnb & Hcash).
  assert (Hcash0 : current_balance a2 = current_balance account)
    by (rewrite Hcash; destruct fees; reflexivity).
  assert (Hsq0 : nq == stock_quantity account + signed_quantity action quantity)
    by (rewrite Hnq; destruct fees; reflexivity).
  assert (Hnb0 : nb == current_balance account
                        + cash_flow action (quantize ROUND_HALF_UP (quantity * price))
                            match fees with Some f => fee_total f | None => 0 end)
    by (rewrite Hnb; destruct fees; reflexivity).
  cbv zeta.
  rewrite commit_stock_quantity, commit_current_balance,
    commit_stock_market_value, commit_margin_used, commit_total_value,
    commit_available_balance, commit_position_side, commit_total_fees.
  cbv zeta. rewrite Hcash0.
  rewrite (quantize_comp _ nq _ Hsq0), (quantize_comp _ nb _ Hnb0).
  repeat split; try reflexivity.
  rewrite Hfee. destruct fees; reflexivity.
Qed.

(** X2: after every call of [update_account_for_trade] that returns,
    the available balance and the margin are not negative, the cash is not
    negative unless the action is HOLD (which leaves it as it was), and an
    account that is not short holds no margin. *)
Theorem ledger_never_negative account action quantity price fees now account' :
  update_account_for_trade account action quantity price fees now
    = (account', Done) ->
  0 <= available_balance account' /\
  0 <= margin_used account' /\
  (action <> HOLD -> 0 <= current_balance account') /\
  (0 <= stock_quantity account' -> margin_used account' == 0).
Proof.
  intros H. apply update_done_fields in H. cbv zeta in H.
  destruct H as (Hq & Hc & Hv & _ & Hm & _ & Ha & _).
  rewrite Ha, Hm, Hc, Hq. cbv zeta.
  repeat split.
  - destruct (Qlt_le_dec _ 0) as [H1 | H1]; destruct (Qlt_le_dec _ 0); lra.
  - destruct (Qlt_le_dec _ 0).
    + apply quantize_half_up_nonneg, Qabs_nonneg.
    + rewrite quantize_zero. lra.
  - intros Hne. destruct action; try congruence; apply py_max_ge_l.
  - intros Hnn. destruct (Qlt_le_dec _ 0); [lra | apply quantize_zero].
Qed.

Lemma ledger_never_negative_witness :
  let account' :=
    fst (update_account_for_trade short_account COVER_SHORT 1 200000 None 1%nat) in
  0 <= available_balance account' /\
  0 <= margin_used account' /\
  (COVER_SHORT <> HOLD -> 0 <= current_balance account') /\
  (0 <= stock_quantity account' -> margin_used account' == 0).
Proof.
  apply (ledger_never_negative short_account COVER_SHORT 1 200000 None 1%nat).
  vm_compute. reflexivity.
Defined.

(** X3: after every call that returns, the derived fields agree with
    one another exactly, with no rounding left between them: the total
    value is the cash plus the market value; on a short position the
    margin is the absolute market value and the available balance is the
    cash less that margin, floored at zero; otherwise the margin is zero
    and the available balance is the cash.  For HOLD, which does not
    touch the cash, this needs the cash to be a non-negative decimal of at
    most eight fractional digits. *)
Theorem derived_fields_exact account action quantity price fees now account' :
  update_account_for_trade account action quantity price fees now
    = (account', Done) ->
  (action = HOLD -> is_q8 (current_balance account)
                    /\ 0 <= current_balance account) ->
  total_value account' == current_balance account' + stock_market_value account' /\
  (stock_quantity account' < 0 ->
   margin_used account' == Qabs (stock_market_value account') /\
   available_balance account'
     == py_max 0 (current_balance account' - Qabs (stock_market_value account'))) /\
  (0 <= stock_quantity account' ->
   margin_used account' == 0 /\
   available_balance account' == current_balance account').
Proof.
  intros H Hhold. apply update_done_fields in H. cbv zeta in H.
  destruct H as (Hq & Hc & Hv & _ & Hm & Ht & Ha & _).
  assert (Qc : is_q8 (current_balance account')).
  { rewrite Hc. destruct action;
      try (apply py_max_is_q8; [apply zero_is_q8 | apply quantize_is_q8]).
    apply Hhold. reflexivity. }
  assert (Pc : 0 <= current_balance account').
  { rewrite Hc. destruct action; try apply py_max_ge_l.
    apply Hhold. reflexivity. }
  assert (Qv : is_q8 (stock_market_value account'))
    by (rewrite Hv; apply quantize_is_q8).
  rewrite <- Hq in Hv, Hm, Ht, Ha. rewrite <- Hc in Ht, Ha.
  rewrite <- Hv in Hm, Ht, Ha.
  cbv zeta in Ha.
  split; [| split].
  - rewrite Ht. apply quantize_exact, is_q8_plus; assumption.
  - intros Hneg.
    destruct (Qlt_le_dec (stock_quantity account') 0) as [_ | Hge]; [| lra].
    split.
    + rewrite Hm. apply quantize_exact, is_q8_abs, Qv.
    + rewrite Ha.
      pose proof (quantize_exact ROUND_DOWN
                    (current_balance account'
                     - Qabs (stock_market_value account'))
                    (is_q8_minus _ _ Qc (is_q8_abs _ Qv))) as E.
      unfold py_max.
      destruct (Qlt_le_dec (quantize ROUND_DOWN _) 0), (Qlt_le_dec 0 _); lra.
  - intros Hnn.
    destruct (Qlt_le_dec (stock_quantity account') 0) as [Hlt | _]; [lra |].
    split.
    + rewrite Hm. apply quantize_zero.
    + rewrite Ha.
      pose proof (quantize_exact ROUND_DOWN _ Qc) as E.
      destruct (Qlt_le_dec (quantize ROUND_DOWN _) 0); lra.
Qed.

Lemma derived_fields_exact_witness :
  let account' :=
    fst (update_account_for_trade short_account HOLD 0 120 None 1%nat) in
  total_value account' == current_balance account' + stock_market_value account' /\
  (stock_quantity account' < 0 ->
   margin_used account' == Qabs (stock_market_value account') /\
   available_balance account'
     == py_max 0 (current_balance account' - Qabs (stock_market_value account'))) /\
  (0 <= stock_quantity account' ->
   margin_used account' == 0 /\
   available_balance account' == current_balance account').
Proof.
  apply (derived_fields_exact short_account HOLD 0 120 None 1%nat).
  - vm_compute. reflexivity.
  - intros _. split.
    + exists 10010000000000%Z. vm_compute. reflexivity.
    + vm_compute. discriminate.
Defined.

(** ** The final block as one record *)

(** A case distinction between two updates of an account is an update by
    a case distinction. *)
Lemma if_set_position_side (P R : Prop) (c : {P} + {R}) (a : VirtualAccount) :
  (if c then set_position_side SHORT a else a)
  = set_position_side (if c then SHORT else position_side a) a.
Proof. destruct c, a; reflexivity. Qed.

Lemma if_set_margin_used (P R : Prop) (c : {P} + {R}) (x y : Q)
    (a : VirtualAccount) :
  (if c then set_margin_used x a else set_margin_used y a)
  = set_margin_used (if c then x else y) a.
Proof. destruct c; reflexivity. Qed.

Lemma if_set_available_balance (P R : Prop) (c : {P} + {R}) (x y : Q)
    (a : VirtualAccount) :
  (if c then set_available_balance x a else set_available_balance y a)
  = set_available_balance (if c then x else y) a.
Proof. destruct c; reflexivity. Qed.

Lemma if_floor_available_balance (P R : Prop) (c : {P} + {R})
    (a : VirtualAccount) :
  (if c then set_available_balance 0 a else a)
  = set_available_balance (if c then 0 else available_balance a) a.
Proof. destruct c, a; reflexivity. Qed.

Lemma match_set_current_balance (action : TradeAction) (v : Q)
    (a : VirtualAccount) :
  match action with
  | HOLD => a
  | _ => set_current_balance v a
  end
  = set_current_balance
      match action with
      | HOLD => current_balance a
      | _ => v
      end a.
Proof. destruct action, a; reflexivity. Qed.

Ltac account_normal :=
  rewrite ?if_set_position_side, ?if_set_margin_used,
    ?if_set_available_balance, ?if_floor_available_balance,
    ?match_set_current_balance;
  cbn [initial_balance current_balance stock_price stock_quantity
       stock_market_value total_value position_side margin_used
       short_avg_price short_total_cost short_positions
       long_positions available_balance commission_rate_buy
       commission_rate_sell tax_rate min_commission total_fees
       updated_at
       set_current_balance set_stock_price set_stock_quantity
       set_stock_market_value set_total_value set_position_side
       set_margin_used set_short_avg_price set_short_total_cost
       set_short_positions set_long_positions
       set_available_balance set_total_fees set_updated_at].

(** One assignment of a block of assignments: the account it yields is
    brought to normal form before it is passed on. *)
Ltac commit_step :=
  lazymatch goal with
  | |- (let x := ?b in @?f x) = ?R =>
      let F := fresh "F" in
      let H := fresh "H" in
      pose (F := f); change (F b = R);
      eassert (H : b = _) by (account_normal; reflexivity);
      try rewrite H; clear H; subst F; cbv beta
  end.

(** The account that the final block leaves, field by field. *)
Lemma commit_account_eq account action dec_price new_balance new_quantity now :
  let q' := quantize ROUND_HALF_UP new_quantity in
  let c' := match action with
            | HOLD => current_balance account
            | _ => py_max 0 (quantize ROUND_HALF_UP new_balance)
            end in
  let v' := quantize ROUND_HALF_UP (q' * dec_price) in
  let raw := if Qlt_le_dec q' 0
             then quantize ROUND_DOWN (c' - Qabs v')
             else quantize ROUND_DOWN c' in
  commit_account account action dec_price new_balance new_quantity now
  = mkAccount (initial_balance account) c' (quantize ROUND_HALF_UP dec_price)
      q' v' (quantize ROUND_HALF_UP (c' + v'))
      (if Qlt_le_dec q' 0 then SHORT else LONG)
      (if Qlt_le_dec q' 0 then quantize ROUND_HALF_UP (Qabs v')
       else quantize ROUND_HALF_UP 0)
      (short_avg_price account) (short_total_cost account)
      (short_positions account) (long_positions account)
      (if Qlt_le_dec raw 0 then 0 else raw)
      (commission_rate_buy account) (commission_rate_sell account)
      (tax_rate account) (min_commission account) (total_fees account) now.
Proof.
  cbv zeta. cbv beta delta [commit_account].
  do 10 commit_step.
  rewrite if_floor_available_balance.
  destruct account as [f1 f2 f3 f4 f5 f6 f7 f8 f9 f10 f11 f12 f13 f14 f15
                       f16 f17 f18 f19].
  reflexivity.
Qed.

(** ** HOLD *)

Lemma hold_unfold account quantity price now :
  update_account_for_trade account HOLD quantity price None now
  = (commit_account account HOLD price (current_balance account)
       (stock_quantity account) now, Done).
Proof. unfold update_account_for_trade, trade_branch. cbv zeta. reflexivity. Qed.

(** X4: HOLD at a given price and clock reading is idempotent: a second
    HOLD returns the very account the first one left, and HOLD changes
    neither the cash, nor the lots, nor the accumulated fees; the quantity
    passed to it is ignored. *)
Theorem hold_is_idempotent account quantity quantity2 price now :
  let once := update_account_for_trade account HOLD quantity price None now in
  update_account_for_trade (fst once) HOLD quantity2 price None now = once /\
  current_balance (fst once) = current_balance account /\
  long_positions (fst once) = long_positions account /\
  short_positions (fst once) = short_positions account /\
  total_fees (fst once) = total_fees account.
Proof.
  cbv zeta. rewrite !hold_unfold. cbn [fst].
  rewrite (commit_account_eq account HOLD price). cbv zeta.
  split; [| repeat split].
  rewrite commit_account_eq. cbv zeta. ledger_simpl.
  rewrite !quantize_idem. reflexivity.
Qed.

(** ** BUY, SELL and the round trip *)

Lemma buy_unfold account quantity price fees now :
  let account1 :=
    match fees with
    | Some f => set_total_fees (total_fees account + fee_total f) account
    | None => account
    end in
  let fee := match fees with Some f => fee_total f | None => 0 end in
  let amount := quantize ROUND_HALF_UP (quantity * price) in
  update_account_for_trade account BUY quantity price fees now =
  if Qlt_le_dec (current_balance account) (amount + fee)
  then (account1, Raised InsufficientFunds)
  else
    (commit_account
       (set_long_positions
          (long_positions account ++ [mkLongLot price quantity amount now])
          account1)
       BUY price (current_balance account - amount - fee)
       (stock_quantity account + quantity) now, Done).
Proof.
  cbv zeta. unfold update_account_for_trade, trade_branch. cbv zeta.
  destruct fees as [f |]; ledger_simpl;
    destruct (Qlt_le_dec _ _); reflexivity.
Qed.

Lemma sell_unfold account quantity price fees now :
  let account1 :=
    match fees with
    | Some f => set_total_fees (total_fees account + fee_total f) account
    | None => account
    end in
  let fee := match fees with Some f => fee_total f | None => 0 end in
  let amount := quantize ROUND_HALF_UP (quantity * price) in
  update_account_for_trade account SELL quantity price fees now =
  if Qlt_le_dec (stock_quantity account - quantity) 0
  then (account1, Raised OverSell)
  else
    (commit_account
       (set_long_positions
          (close_long_positions (long_positions account) quantity) account1)
       SELL price (current_balance account + amount - fee)
       (stock_quantity account - quantity) now, Done).
Proof.
  cbv zeta. unfold update_account_for_trade, trade_branch. cbv zeta.
  destruct fees as [f |]; ledger_simpl;
    destruct (Qlt_le_dec _ _); reflexivity.
Qed.

(** X5: BUY returns exactly when the quantized trade amount plus the
    fees does not exceed the cash.  When it raises, it is for
    insufficient funds and the cash, the quantity and the long lots are
    as before; when it returns, one lot with the price, quantity and
    amount of the trade is appended to the long lots and, for cash and
    fees of at most eight fractional digits, the cash has gone down by
    exactly the amount and the fees. *)
Theorem buy_debits_exactly account quantity price fees now :
  let fee := match fees with Some f => fee_total f | None => 0 end in
  let amount := quantize ROUND_HALF_UP (quantity * price) in
  let r := update_account_for_trade account BUY quantity price fees now in
  (snd r = Done <-> amount + fee <= current_balance account) /\
  (snd r <> Done ->
   snd r = Raised InsufficientFunds /\
   current_balance (fst r) = current_balance account /\
   stock_quantity (fst r) = stock_quantity account /\
   long_positions (fst r) = long_positions account) /\
  (snd r = Done ->
   long_positions (fst r)
     = long_positions account ++ [mkLongLot price quantity amount now] /\
   (is_q8 (current_balance account) -> is_q8 fee ->
    current_balance (fst r) == current_balance account - amount - fee)).
Proof.
  cbv zeta. rewrite buy_unfold. cbv zeta.
  destruct (Qlt_le_dec _ _) as [Hlow | Hok]; cbn [fst snd].
  - repeat split; try discriminate; try (destruct fees; reflexivity).
    intros H. lra.
  - repeat split; try congruence.
    + rewrite commit_account_eq. cbv zeta. ledger_simpl.
      destruct fees; reflexivity.
    + intros Qc Qf. rewrite commit_current_balance.
      assert (Qd : is_q8 (current_balance account
                          - quantize ROUND_HALF_UP (quantity * price)
                          - match fees with Some f => fee_total f | None => 0 end)).
      { apply is_q8_minus; [apply is_q8_minus |]; try assumption.
        apply quantize_is_q8. }
      pose proof (quantize_exact ROUND_HALF_UP _ Qd) as E.
      unfold py_max. destruct (Qlt_le_dec 0 _); lra.
Qed.

(** X6: without fees, buying a quantity and selling it again at the
    same price both succeed and give back the cash and the position the
    account started with, for a non-short account whose cash covers the
    purchase, cash, position and quantity having at most eight fractional
    digits. *)
Theorem zero_fee_round_trip account quantity price t1 t2 :
  is_q8 (current_balance account) -> is_q8 (stock_quantity account) ->
  is_q8 quantity ->
  0 <= stock_quantity account -> 0 <= current_balance account ->
  quantize ROUND_HALF_UP (quantity * price) <= current_balance account ->
  let r1 := update_account_for_trade account BUY quantity price None t1 in
  let r2 := update_account_for_trade (fst r1) SELL quantity price None t2 in
  snd r1 = Done /\ snd r2 = Done /\
  current_balance (fst r2) == current_balance account /\
  stock_quantity (fst r2) == stock_quantity account.
Proof.
  intros Qc Qs Qq Hs Hc Hfund. cbv zeta.
  set (A := quantize ROUND_HALF_UP (quantity * price)) in *.
  assert (QA : is_q8 A) by apply quantize_is_q8.
  rewrite buy_unfold. cbv zeta. fold A.
  destruct (Qlt_le_dec (current_balance account) (A + 0)) as [Hlow | _];
    [lra |].
  cbn [fst snd]. split; [reflexivity |].
  rewrite sell_unfold. cbv zeta. fold A.
  rewrite !commit_stock_quantity, !commit_current_balance.
  assert (E1 : quantize ROUND_HALF_UP (stock_quantity account + quantity)
               == stock_quantity account + quantity)
    by (apply quantize_exact, is_q8_plus; assumption).
  assert (E2 : py_max 0 (quantize ROUND_HALF_UP (current_balance account - A - 0))
               == current_balance account - A).
  { assert (E : quantize ROUND_HALF_UP (current_balance account - A - 0)
                == current_balance account - A - 0).
    { apply quantize_exact. apply is_q8_minus; [| apply zero_is_q8].
      apply is_q8_minus; assumption. }
    unfold py_max. destruct (Qlt_le_dec 0 _); lra. }
  destruct (Qlt_le_dec _ 0) as [Hneg | _]; [rewrite E1 in Hneg; lra |].
  cbn [fst snd]. split; [reflexivity |].
  rewrite commit_stock_quantity, commit_current_balance.
  split.
  - assert (E : quantize ROUND_HALF_UP
                  (py_max 0 (quantize ROUND_HALF_UP
                               (current_balance account - A - 0)) + A - 0)
                == current_balance account).
    { rewrite (quantize_comp _ _ (current_balance account))
        by (rewrite E2; ring).
      apply quantize_exact, Qc. }
    unfold py_max at 1. destruct (Qlt_le_dec 0 _); lra.
  - rewrite (quantize_comp _ _ (stock_quantity account))
      by (rewrite E1; ring).
    apply quantize_exact, Qs.
Qed.

Lemma zero_fee_round_trip_witness :
  let r1 := update_account_for_trade sample_account BUY 2 50 None 1%nat in
  let r2 := update_account_for_trade (fst r1) SELL 2 50 None 2%nat in
  snd r1 = Done /\ snd r2 = Done /\
  current_balance (fst r2) == current_balance sample_account /\
  stock_quantity (fst r2) == stock_quantity sample_account.
Proof.
  apply (zero_fee_round_trip sample_account 2 50 1%nat 2%nat).
  - exists 10000000000000%Z. vm_compute. reflexivity.
  - exists 0%Z. vm_compute. reflexivity.
  - exists 200000000%Z. vm_compute. reflexivity.
  - vm_compute. discriminate.
  - vm_compute. discriminate.
  - vm_compute. discriminate.
Defined.

(** ** FIFO closing of lots *)

Lemma close_long_nothing (lots : list LongLot) (r : Q) :
  r <= 0 -> close_long_positions lots r = lots.
Proof.
  intros Hr. induction lots as [| pos rest IH]; [reflexivity |].
  cbn [close_long_positions].
  destruct (Qlt_le_dec 0 r); [lra |]. rewrite IH. reflexivity.
Qed.

Lemma close_long_quantity (lots : list LongLot) :
  forall r,
    0 <= r -> r <= long_lots_quantity lots ->
    long_lots_quantity (close_long_positions lots r)
    == long_lots_quantity lots - r.
Proof.
  induction lots as [| pos rest IH]; intros r Hr Hsum.
  - cbn in *. lra.
  - cbn [close_long_positions long_lots_quantity fold_right] in *.
    fold (long_lots_quantity rest) in *.
    destruct (Qlt_le_dec 0 r) as [Hpos | Hzero].
    + destruct (Qlt_le_dec r (long_quantity pos)) as [Hpart | Hwhole].
      * cbn [long_lots_quantity fold_right long_quantity].
        fold (long_lots_quantity (close_long_positions rest 0)).
        rewrite close_long_nothing by lra. ring.
      * rewrite (IH (r - long_quantity pos)) by lra. ring.
    + cbn [long_lots_quantity fold_right].
      fold (long_lots_quantity (close_long_positions rest r)).
      rewrite close_long_nothing by exact Hzero. lra.
Qed.

(** The lots kept are the newest ones: a suffix of the list, in front of
    which the partly closed lot stays with its price, its opening time
    and the rest of its quantity. *)
Lemma close_long_suffix (lots : list LongLot) :
  forall r,
    exists k,
      close_long_positions lots r = skipn k lots \/
      exists lot q',
        nth_error lots k = Some lot /\
        0 < q' /\ q' < long_quantity lot /\
        close_long_positions lots r
        = mkLongLot (long_price lot) q' (long_price lot * q')
            (long_open_time lot) :: skipn (S k) lots.
Proof.
  induction lots as [| pos rest IH]; intros r.
  - exists 0%nat. left. reflexivity.
  - cbn [close_long_positions].
    destruct (Qlt_le_dec 0 r) as [Hpos | Hzero].
    + destruct (Qlt_le_dec r (long_quantity pos)) as [Hpart | Hwhole].
      * exists 0%nat. right. exists pos, (long_quantity pos - r).
        rewrite close_long_nothing by lra.
        split; [reflexivity |]. split; [lra |]. split; [lra | reflexivity].
      * destruct (IH (r - long_quantity pos)) as [k Hk].
        exists (S k). exact Hk.
    + exists 0%nat. left. rewrite close_long_nothing by exact Hzero.
      reflexivity.
Qed.

(** X7: closing long lots first in, first out removes exactly the
    quantity sold, when that is between zero and the quantity the lots
    hold; and the lots kept are the newest ones, in their order: a suffix
    of the list, possibly preceded by the partly closed lot, which keeps
    its price and opening time with a smaller, still positive
    quantity. *)
Theorem close_long_conserves_quantity (lots : list LongLot) (r : Q) :
  0 <= r -> r <= long_lots_quantity lots ->
  long_lots_quantity (close_long_positions lots r)
    == long_lots_quantity lots - r /\
  exists k,
    close_long_positions lots r = skipn k lots \/
    exists lot q',
      nth_error lots k = Some lot /\
      0 < q' /\ q' < long_quantity lot /\
      close_long_positions lots r
      = mkLongLot (long_price lot) q' (long_price lot * q')
          (long_open_time lot) :: skipn (S k) lots.
Proof.
  intros Hr Hsum. split.
  - apply close_long_quantity; assumption.
  - apply close_long_suffix.
Qed.

Lemma close_long_conserves_quantity_witness :
  let lots := [mkLongLot 10 2 20 1; mkLongLot 12 3 36 2] in
  long_lots_quantity (close_long_positions lots 4)
    == long_lots_quantity lots - 4 /\
  exists k,
    close_long_positions lots 4 = skipn k lots \/
    exists lot q',
      nth_error lots k = Some lot /\
      0 < q' /\ q' < long_quantity lot /\
      close_long_positions lots 4
      = mkLongLot (long_price lot) q' (long_price lot * q')
          (long_open_time lot) :: skipn (S k) lots.
Proof.
  apply (close_long_conserves_quantity
           [mkLongLot 10 2 20 1; mkLongLot 12 3 36 2] 4).
  - vm_compute. discriminate.
  - vm_compute. discriminate.
Defined.

Lemma close_short_nothing (lots : list ShortLot) (r cost released : Q) :
  r <= 0 -> close_short_positions lots r cost released = (lots, cost, released).
Proof.
  intros Hr. induction lots as [| pos rest IH]; [reflexivity |].
  cbn [close_short_positions].
  destruct (Qlt_le_dec 0 r); [lra |]. rewrite IH. reflexivity.
Qed.

(** Quantity and cost through the FIFO closing of short lots. *)
Lemma close_short_quantity_cost (lots : list ShortLot) :
  forall r cost released,
    0 <= r -> r <= short_lots_quantity lots ->
    short_lots_quantity (fst (fst (close_short_positions lots r cost released)))
      == short_lots_quantity lots - r /\
    snd (fst (close_short_positions lots r cost released))
      == cost - (short_lots_cost lots
                 - short_lots_cost
                     (fst (fst (close_short_positions lots r cost released)))).
Proof.
  induction lots as [| pos rest IH]; intros r cost released Hr Hsum.
  - cbn in *. split; lra.
  - cbn [close_short_positions short_lots_quantity short_lots_cost
         fold_right] in *.
    fold (short_lots_quantity rest) (short_lots_cost rest) in *.
    destruct (Qlt_le_dec 0 r) as [Hpos | Hzero].
    + destruct (Qlt_le_dec r (short_quantity pos)) as [Hpart | Hwhole].
      * rewrite close_short_nothing by lra.
        cbn [fst snd short_lots_quantity short_lots_cost fold_right
             short_quantity short_price].
        fold (short_lots_quantity rest) (short_lots_cost rest).
        split; ring.
      * specialize (IH (r - short_quantity pos)
                      (cost - short_price pos * short_quantity pos)
                      (released + short_margin_used pos)).
        destruct IH as (H1 & H2); [lra | lra |].
        split; [rewrite H1; ring | rewrite H2; ring].
    + rewrite close_short_nothing by exact Hzero.
      cbn [fst snd short_lots_quantity short_lots_cost fold_right].
      fold (short_lots_quantity rest) (short_lots_cost rest).
      split; lra.
Qed.

(** X8: closing short lots first in, first out removes exactly the
    quantity covered, when that is between zero and the quantity the lots
    hold, and lowers the running total cost by the cost booked in what was
    removed; when every lot reserves its price times its quantity as
    margin, as the lots written by SHORT_SELL and by a partial close do,
    the margin released is the margin of what was removed and the lots
    kept still reserve price times quantity. *)
Theorem close_short_conserves (lots : list ShortLot) :
  forall r cost released,
    0 <= r -> r <= short_lots_quantity lots ->
    let closed := close_short_positions lots r cost released in
    let kept := fst (fst closed) in
    short_lots_quantity kept == short_lots_quantity lots - r /\
    snd (fst closed) == cost - (short_lots_cost lots - short_lots_cost kept) /\
    (Forall (fun lot => short_margin_used lot
                        == short_price lot * short_quantity lot) lots ->
     snd closed
       == released + (short_lots_margin lots - short_lots_margin kept) /\
     Forall (fun lot => short_margin_used lot
                        == short_price lot * short_quantity lot) kept).
Proof.
  intros r cost released Hr Hsum. cbv zeta.
  destruct (close_short_quantity_cost lots r cost released Hr Hsum)
    as [Hq Hc].
  split; [exact Hq |]. split; [exact Hc |].
  clear Hq Hc. revert r cost released Hr Hsum.
  induction lots as [| pos rest IH]; intros r cost released Hr Hsum Hall.
  - cbn in *. split; [lra | constructor].
  - inversion Hall as [| ? ? Hm Hrest]; subst.
    cbn [close_short_positions short_lots_quantity short_lots_margin
         fold_right] in *.
    fold (short_lots_quantity rest) (short_lots_margin rest) in *.
    destruct (Qlt_le_dec 0 r) as [Hpos | Hzero].
    + destruct (Qlt_le_dec r (short_quantity pos)) as [Hpart | Hwhole].
      * rewrite close_short_nothing by lra.
        cbn [fst snd short_lots_margin fold_right short_quantity short_price
             short_margin_used].
        fold (short_lots_margin rest).
        split.
        -- rewrite Hm. field. lra.
        -- constructor; [| exact Hrest].
           cbn [short_quantity short_margin_used short_price]. reflexivity.
      * specialize (IH (r - short_quantity pos)
                      (cost - short_price pos * short_quantity pos)
                      (released + short_margin_used pos)).
        destruct IH as (H3 & H4); [lra | lra | exact Hrest |].
        split; [rewrite H3; ring | exact H4].
    + rewrite close_short_nothing by exact Hzero.
      cbn [fst snd short_lots_margin fold_right].
      fold (short_lots_margin rest).
      split; [lra | exact Hall].
Qed.

Lemma close_short_conserves_witness :
  let lots := [mkShortLot 10 2 20 20 1; mkShortLot 12 3 36 36 2] in
  let closed := close_short_positions lots 4 56 0 in
  let kept := fst (fst closed) in
  short_lots_quantity kept == short_lots_quantity lots - 4 /\
  snd (fst closed) == 56 - (short_lots_cost lots - short_lots_cost kept) /\
  (Forall (fun lot => short_margin_used lot
                      == short_price lot * short_quantity lot) lots ->
   snd closed == 0 + (short_lots_margin lots - short_lots_margin kept) /\
   Forall (fun lot => short_margin_used lot
                      == short_price lot * short_quantity lot) kept).
Proof.
  apply (close_short_conserves
           [mkShortLot 10 2 20 20 1; mkShortLot 12 3 36 36 2] 4 56 0).
  - vm_compute. discriminate.
  - vm_compute. discriminate.
Defined.

(** ** A validated purchase is accepted by the ledger *)

Lemma py_max_mono_l (a a' b : Q) : a <= a' -> py_max a b <= py_max a' b.
Proof.
  intros H. unfold py_max.
  destruct (Qlt_le_dec a b), (Qlt_le_dec a' b); lra.
Qed.

(** The BUY fee grows with the quantity. *)
Lemma buy_fee_mono (account : VirtualAccount) (q q' price : Q) :
  0 <= price -> 0 <= commission_rate_buy account -> q <= q' ->
  fee_total (calculate_trading_fees BUY q price account)
  <= fee_total (calculate_trading_fees BUY q' price account).
Proof.
  intros Hp Hr Hq. unfold calculate_trading_fees. cbv zeta.
  cbn [fee_total fst snd].
  apply Qplus_le_compat; [| lra].
  apply py_max_mono_l, quantize_half_up_mono.
  apply Qmult_le_compat_r; [| exact Hr].
  apply quantize_half_up_mono.
  apply Qmult_le_compat_r; [exact Hq | exact Hp].
Qed.

Lemma buy_fee_ge_min (account : VirtualAccount) (q price : Q) :
  min_commission account
  <= fee_total (calculate_trading_fees BUY q price account).
Proof.
  unfold calculate_trading_fees. cbv zeta. cbn [fee_total fst snd].
  pose proof (py_max_ge_r
    (quantize ROUND_HALF_UP
       (quantize ROUND_HALF_UP (q * price) * commission_rate_buy account))
    (min_commission account)). lra.
Qed.

(** Fees grow with the quantity. *)
Lemma fee_mono (action : TradeAction) (account : VirtualAccount) (q q' price : Q) :
  0 <= price ->
  0 <= commission_rate_buy account -> 0 <= commission_rate_sell account ->
  0 <= tax_rate account -> q <= q' ->
  fee_total (calculate_trading_fees action q price account)
  <= fee_total (calculate_trading_fees action q' price account).
Proof.
  intros Hp Hb Hs Ht Hq. unfold calculate_trading_fees. cbv zeta.
  assert (Ham : quantize ROUND_HALF_UP (q * price)
                <= quantize ROUND_HALF_UP (q' * price)).
  { apply quantize_half_up_mono.
    apply Qmult_le_compat_r; [exact Hq | exact Hp]. }
  destruct action; cbn [fee_total fst snd];
    apply Qplus_le_compat; try lra;
    try (apply py_max_mono_l);
    apply quantize_half_up_mono;
    apply Qmult_le_compat_r; assumption.
Qed.

Lemma fee_is_q8 (action : TradeAction) (account : VirtualAccount) (q price : Q) :
  is_q8 (min_commission account) ->
  is_q8 (fee_total (calculate_trading_fees action q price account)).
Proof.
  intros Hm. unfold calculate_trading_fees. cbv zeta. cbn [fee_total].
  apply is_q8_plus.
  - apply py_max_is_q8; [apply quantize_is_q8 | exact Hm].
  - destruct action; try apply zero_is_q8; apply quantize_is_q8.
Qed.

Lemma fee_ge_min (action : TradeAction) (account : VirtualAccount) (q price : Q) :
  0 <= tax_rate account -> 0 <= price * q ->
  min_commission account
  <= fee_total (calculate_trading_fees action q price account).
Proof.
  intros Ht Hpq. unfold calculate_trading_fees. cbv zeta. cbn [fee_total].
  match goal with
  | |- _ <= py_max ?a ?b + _ => pose proof (py_max_ge_r a b) as Hc
  end.
  assert (Htax : 0 <= quantize ROUND_HALF_UP
                        (quantize ROUND_HALF_UP (q * price) * tax_rate account)).
  { apply quantize_half_up_nonneg, Qmult_le_0_compat; [| exact Ht].
    apply quantize_half_up_nonneg. lra. }
  destruct action; cbn [fst snd] in *; lra.
Qed.

(** The shape shared by the direct sizes: what a positive quantity within
    [max(0, floor8((funds - fee(ceil8(funds / price)) - min) / price))]
    costs. *)
Lemma direct_size_cost (fee : Q -> Q) (minc price funds q : Q) :
  0 < price -> 0 < q ->
  is_q8 funds -> is_q8 minc -> 0 <= minc ->
  (forall x, is_q8 (fee x)) ->
  0 <= fee (quantize ROUND_UP (funds / price)) ->
  (forall x y, x <= y -> fee x <= fee y) ->
  q <= py_max 0
         (quantize ROUND_DOWN
            ((funds - (fee (quantize ROUND_UP (funds / price)) + minc)) / price)) ->
  quantize ROUND_HALF_UP (q * price) + fee q <= funds - minc.
Proof.
  intros Hp Hq Hf Hm Hm0 Hfee8 Hfee0 Hmono Hle.
  set (est := quantize ROUND_UP (funds / price)) in *.
  set (usable := funds - (fee est + minc)) in *.
  assert (Hm_le : q <= quantize ROUND_DOWN (usable / price)).
  { unfold py_max in Hle.
    destruct (Qlt_le_dec 0 (quantize ROUND_DOWN (usable / price))); lra. }
  assert (Hdiv : 0 <= usable / price).
  { destruct (Qlt_le_dec (usable / price) 0) as [Hneg | Hok]; [| exact Hok].
    pose proof (quantize_down_neg _ Hneg). lra. }
  pose proof (quantize_down_bounds _ Hdiv) as [_ Hdown].
  assert (Hqp : q * price <= usable).
  { assert (Hq' : q <= usable / price) by lra.
    apply (Qmult_le_compat_r _ _ price) in Hq'; [| lra].
    setoid_replace (usable / price * price) with usable in Hq'
      by (field; lra).
    exact Hq'. }
  assert (Husable : is_q8 usable).
  { unfold usable. apply is_q8_minus; [exact Hf |].
    apply is_q8_plus; [apply Hfee8 | exact Hm]. }
  assert (Hamount : quantize ROUND_HALF_UP (q * price) <= usable).
  { rewrite <- (quantize_exact ROUND_HALF_UP usable Husable).
    apply quantize_half_up_mono, Hqp. }
  assert (Hqpos : 0 <= q * price) by (apply Qmult_le_0_compat; lra).
  assert (Hfq : fee q <= fee est).
  { apply Hmono.
    destruct (Qlt_le_dec (funds / price) 0) as [Hneg | Hfunds].
    - (* negative funds leave nothing usable *)
      assert (Hfn : funds < 0).
      { apply (Qmult_lt_compat_r _ _ price) in Hneg; [| exact Hp].
        setoid_replace (funds / price * price) with funds in Hneg
          by (field; lra).
        lra. }
      exfalso. unfold usable in Hqp. fold est in Hfee0.
      set (e := fee est) in *. clearbody e. lra.
    - pose proof (quantize_up_ge _ Hfunds) as Hup. fold est in Hup.
      assert (usable / price <= funds / price).
      { apply Qmult_le_compat_r;
          [| apply Qinv_le_0_compat; lra].
        unfold usable. fold est in Hfee0. lra. }
      lra. }
  unfold usable in Hamount. lra.
Qed.

(** X9: a purchase that [validate_trade] accepts on an account that is
    not short is accepted by the ledger when executed as [execute_trade]
    does, with the fees of [calculate_trading_fees]: it does not raise, it
    leaves at least the minimum commission in cash, and the position grows
    by the quantity.  The available balance and the minimum commission
    have at most eight fractional digits, the available balance does not
    exceed the cash, and the minimum commission and the buy rate are not
    negative. *)
Theorem validated_buy_is_accepted (account : VirtualAccount)
    (quantity price : Q) (now : nat) :
  0 <= stock_quantity account ->
  is_q8 (available_balance account) ->
  available_balance account <= current_balance account ->
  is_q8 (min_commission account) ->
  0 <= min_commission account ->
  0 <= commission_rate_buy account ->
  validate_trade account BUY quantity price = true ->
  let fees := calculate_trading_fees BUY quantity price account in
  let result := update_account_for_trade account BUY quantity price
                  (Some fees) now in
  snd result = Done /\
  min_commission account <= current_balance (fst result) /\
  stock_quantity (fst result)
    = quantize ROUND_HALF_UP (stock_quantity account + quantity).
Proof.
  intros Hlong Ha Hcash Hm Hm0 Hr Hv. cbv zeta.
  unfold validate_trade, calculate_max_trade_quantity,
    calculate_max_reverse_buy_quantity in Hv.
  destruct (Qlt_le_dec 0 price) as [Hp | ]; [| discriminate].
  destruct (Qlt_le_dec 0 quantity) as [Hq | ]; [| discriminate].
  destruct (Qlt_le_dec (stock_quantity account) 0) as [Hshort | _].
  - (* a zero quantity is not short: the guard of the reverse size is
       [stock_quantity >= 0] *)
    lra.
  - destruct (Qlt_le_dec (calculate_max_direct_buy_quantity account price None)
                quantity) as [| Hle]; [discriminate |].
    assert (Hcost :
      quantize ROUND_HALF_UP (quantity * price)
      + fee_total (calculate_trading_fees BUY quantity price account)
      <= available_balance account - min_commission account).
    { apply (direct_size_cost
               (fun x => fee_total (calculate_trading_fees BUY x price account)));
        try assumption.
      - intros x. apply fee_is_q8, Hm.
      - eapply Qle_trans; [exact Hm0 | apply buy_fee_ge_min].
      - intros x y Hxy. apply buy_fee_mono; try assumption. lra. }
    rewrite buy_unfold. cbv zeta.
    destruct (Qlt_le_dec (current_balance account) _) as [Hraise | Hok].
    + lra.
    + cbn [fst snd]. split; [reflexivity |].
      rewrite commit_current_balance, commit_stock_quantity.
      split; [| reflexivity].
      eapply Qle_trans; [| apply py_max_ge_r].
      rewrite <- (quantize_exact ROUND_HALF_UP (min_commission account) Hm).
      apply quantize_half_up_mono. lra.
Qed.

Lemma validated_buy_is_accepted_witness :
  let fees := calculate_trading_fees BUY 1 50000 sample_account in
  let result := update_account_for_trade sample_account BUY 1 50000
                  (Some fees) 1%nat in
  snd result = Done /\
  min_commission sample_account <= current_balance (fst result) /\
  stock_quantity (fst result)
    = quantize ROUND_HALF_UP (stock_quantity sample_account + 1).
Proof.
  apply (validated_buy_is_accepted sample_account 1 50000 1%nat).
  - vm_compute. discriminate.
  - exists 10000000000000%Z. vm_compute. reflexivity.
  - vm_compute. discriminate.
  - exists 500000000%Z. vm_compute. reflexivity.
  - vm_compute. discriminate.
  - vm_compute. discriminate.
  - vm_compute. reflexivity.
Defined.

(** ** What the ledger leaves alone *)

Lemma trade_branch_configuration account action q p amount fee now account' res :
  trade_branch account action q p amount fee now = (account', res) ->
  same_configuration account account'.
Proof.
  unfold trade_branch, _update_short_positions, same_configuration.
  destruct action; cbv zeta.
  - destruct (Qlt_le_dec _ _); intros H; inversion H; repeat split.
  - destruct (Qlt_le_dec _ _); intros H; inversion H; repeat split.
  - intros H; inversion H; repeat split.
  - destruct (Qlt_le_dec (stock_quantity account) 0);
      destruct (Qlt_le_dec _ _); intros H; inversion H; repeat split.
  - destruct (Qlt_le_dec _ _); [intros H; inversion H; repeat split |].
    destruct (close_short_positions _ _ _ _) as [[kept cost] released].
    intros H; inversion H; repeat split.
Qed.

Lemma update_configuration account action quantity price fees now :
  same_configuration account
    (fst (update_account_for_trade account action quantity price fees now)).
Proof.
  destruct (update_account_for_trade account action quantity price fees now)
    as [account' [| e]] eqn:E; cbn [fst].
  - apply update_done_inv in E.
    destruct E as (a2 & nb & nq & nm & Hbr & ->).
    apply trade_branch_configuration in Hbr.
    rewrite commit_account_eq. cbv zeta. unfold same_configuration in *.
    ledger_simpl. destruct fees; exact Hbr.
  - apply update_raised_inv in E.
    apply trade_branch_configuration in E.
    unfold same_configuration in *. destruct fees; exact E.
Qed.

(** X10: no call of [update_account_for_trade], whether it returns or
    raises, changes the initial balance or the fee schedule of the
    account. *)
Theorem ledger_keeps_configuration account action quantity price fees now :
  let account' :=
    fst (update_account_for_trade account action quantity price fees now) in
  initial_balance account' = initial_balance account /\
  commission_rate_buy account' = commission_rate_buy account /\
  commission_rate_sell account' = commission_rate_sell account /\
  tax_rate account' = tax_rate account /\
  min_commission account' = min_commission account.
Proof. exact (update_configuration account action quantity price fees now). Qed.

(** X11: right after a call that returns, the profit and loss computed
    by [calculate_profit_loss] at the trade price is the stored total
    value less the initial balance, quantized, and the percentage is that
    profit over the initial balance times 100, quantized; the initial
    balance is not zero. *)
Theorem profit_loss_matches_total_value
    account action quantity price fees now account' :
  update_account_for_trade account action quantity price fees now
    = (account', Done) ->
  ~ initial_balance account == 0 ->
  let profit := quantize ROUND_HALF_UP
                  (total_value account' - initial_balance account) in
  calculate_profit_loss account' price
  = (profit, quantize ROUND_HALF_UP (profit / initial_balance account * 100)).
Proof.
  intros H Hinit.
  pose proof (update_configuration account action quantity price fees now)
    as [Hib _].
  rewrite H in Hib. cbn [fst] in Hib.
  apply update_done_fields in H. cbv zeta in H.
  destruct H as (Hq & Hc & Hv & _ & _ & Ht & _).
  cbv zeta. unfold calculate_profit_loss. rewrite Hib.
  destruct (Qeq_dec (initial_balance account) 0) as [Hz | _];
    [contradiction |].
  cbv zeta.
  rewrite Ht, Hq, Hc. reflexivity.
Qed.

Lemma profit_loss_matches_total_value_witness :
  let account' :=
    fst (update_account_for_trade sample_account BUY 2 50 None 1%nat) in
  let profit := quantize ROUND_HALF_UP
                  (total_value account' - initial_balance sample_account) in
  calculate_profit_loss account' 50
  = (profit,
     quantize ROUND_HALF_UP (profit / initial_balance sample_account * 100)).
Proof.
  apply (profit_loss_matches_total_value sample_account BUY 2 50 None 1%nat).
  - vm_compute. reflexivity.
  - vm_compute. discriminate.
Defined.

(** ** Lots and position *)




(** ** The legs of a decision *)

Lemma py_min_le_l (a b : Q) : py_min a b <= a.
Proof. unfold py_min. destruct (Qlt_le_dec b a); lra. Qed.

Lemma py_min_le_r (a b : Q) : py_min a b <= b.
Proof. unfold py_min. destruct (Qlt_le_dec b a); lra. Qed.

Lemma py_min_pos (a b : Q) : 0 < a -> 0 < b -> 0 < py_min a b.
Proof. unfold py_min. destruct (Qlt_le_dec b a); lra. Qed.

Lemma py_min_cases (a b : Q) :
  (py_min a b = a /\ a <= b) \/ (py_min a b = b /\ b < a).
Proof. unfold py_min. destruct (Qlt_le_dec b a); [right | left]; split; auto. Qed.

(** X13: for a positive decision quantity the legs computed by
    [_map_decision_to_actions] are either the single leg HOLD with
    quantity zero (for a HOLD decision, and for SELL or COVER_SHORT on a
    flat account) or legs none of which is HOLD, each with a positive
    quantity, whose quantities add up to the decision quantity; a SELL
    leg never exceeds the long position and a COVER_SHORT leg never
    exceeds the short position. *)
Theorem decision_legs_conserve_quantity (current_qty : Q) (llm_act : TradeAction)
    (qty : Q) :
  0 < qty ->
  let legs := _map_decision_to_actions current_qty llm_act qty in
  (legs = [(HOLD, 0)] /\
   (llm_act = HOLD \/
    current_qty == 0 /\ (llm_act = SELL \/ llm_act = COVER_SHORT))) \/
  (legs_quantity legs == qty /\
   Forall (fun leg => fst leg <> HOLD /\ 0 < snd leg) legs /\
   Forall (fun leg =>
             (fst leg = SELL -> snd leg <= current_qty) /\
             (fst leg = COVER_SHORT -> snd leg <= - current_qty)) legs).
Proof.
  intros Hq. cbv zeta. unfold _map_decision_to_actions.
  destruct llm_act; try (left; split; [reflexivity | left; reflexivity]);
    destruct (Qlt_le_dec 0 current_qty) as [Hlong | Hnl];
    try destruct (Qlt_le_dec current_qty 0) as [Hshort | Hns];
    cbv zeta;
    try (left; split; [reflexivity | right; split; [lra | auto]]; fail);
    right;
    try (pose proof (py_min_le_l qty current_qty);
         pose proof (py_min_le_r qty current_qty);
         pose proof (py_min_pos qty current_qty Hq Hlong));
    try (assert (Habs : Qabs current_qty == - current_qty)
           by (apply Qabs_neg; lra);
         assert (Hapos : 0 < Qabs current_qty) by lra;
         pose proof (py_min_le_l qty (Qabs current_qty));
         pose proof (py_min_le_r qty (Qabs current_qty));
         pose proof (py_min_pos qty (Qabs current_qty) Hq Hapos));
    try destruct (Qlt_le_dec 0 (qty - py_min _ _));
    cbn [legs_quantity fold_right fst snd];
    (split; [try ring; try lra |]);
    (split; repeat constructor; cbn [fst snd];
       try discriminate; try congruence; try lra).
Qed.

Lemma decision_legs_conserve_quantity_witness :
  let legs := _map_decision_to_actions 2 SHORT_SELL 5 in
  (legs = [(HOLD, 0)] /\
   (SHORT_SELL = HOLD \/
    2 == 0 /\ (SHORT_SELL = SELL \/ SHORT_SELL = COVER_SHORT))) \/
  (legs_quantity legs == 5 /\
   Forall (fun leg => fst leg <> HOLD /\ 0 < snd leg) legs /\
   Forall (fun leg =>
             (fst leg = SELL -> snd leg <= 2) /\
             (fst leg = COVER_SHORT -> snd leg <= - (2))) legs).
Proof.
  apply (decision_legs_conserve_quantity 2 SHORT_SELL 5).
  vm_compute. reflexivity.
Defined.

(** X14: a SELL or SHORT_SELL decision on a long account is mapped to
    a SELL leg that the ledger accepts whatever the price and the fees:
    the whole decision when it does not exceed the position, and
    otherwise the whole position, which leaves the account flat with the
    lots closed first in, first out, followed by one SHORT_SELL leg for
    the remainder. *)
Theorem reversal_sells_whole_position_first (account : VirtualAccount)
    (llm_act : TradeAction) (qty price : Q) (fees : option Fees) (now : nat) :
  llm_act = SELL \/ llm_act = SHORT_SELL ->
  0 < stock_quantity account -> 0 < qty ->
  exists sell_qty rest,
    _map_decision_to_actions (stock_quantity account) llm_act qty
      = (SELL, sell_qty) :: rest /\
    let result := update_account_for_trade account SELL sell_qty price fees now in
    snd result = Done /\
    (qty <= stock_quantity account -> rest = [] /\ sell_qty = qty) /\
    (stock_quantity account < qty ->
     rest = [(SHORT_SELL, qty - stock_quantity account)] /\
     stock_quantity (fst result) == 0 /\
     long_positions (fst result)
       = close_long_positions (long_positions account) (stock_quantity account)).
Proof.
  intros Hact Hlong Hq.
  assert (Hmap :
    _map_decision_to_actions (stock_quantity account) llm_act qty
    = (SELL, py_min qty (stock_quantity account))
      :: (if Qlt_le_dec 0 (qty - py_min qty (stock_quantity account))
          then [(SHORT_SELL, qty - py_min qty (stock_quantity account))]
          else [])).
  { unfold _map_decision_to_actions.
    destruct Hact as [-> | ->];
      (destruct (Qlt_le_dec 0 (stock_quantity account)); [reflexivity | lra]). }
  rewrite Hmap. eexists _, _. split; [reflexivity |].
  cbv zeta. rewrite sell_unfold. cbv zeta.
  pose proof (py_min_le_r qty (stock_quantity account)) as Hle.
  destruct (Qlt_le_dec (stock_quantity account - py_min qty (stock_quantity account)) 0)
    as [Hbad | Hok]; [lra |].
  cbn [fst snd]. split; [reflexivity |].
  destruct (py_min_cases qty (stock_quantity account)) as [[He Hc] | [He Hc]].
  - split.
    + intros _. rewrite He.
      destruct (Qlt_le_dec 0 (qty - qty)); [lra | split; reflexivity].
    + intros Hlt. lra.
  - split.
    + intros Hqle. lra.
    + intros _. rewrite He.
      destruct (Qlt_le_dec 0 (qty - stock_quantity account)); [| lra].
      split; [reflexivity |].
      rewrite commit_account_eq. cbv zeta. ledger_simpl.
      split.
      * rewrite (quantize_comp _ _ 0) by ring. apply quantize_zero.
      * destruct fees; reflexivity.
Qed.

Lemma reversal_sells_whole_position_first_witness :
  let account :=
    fst (update_account_for_trade sample_account BUY 2 50 None 1%nat) in
  exists sell_qty rest,
    _map_decision_to_actions (stock_quantity account) SHORT_SELL 5
      = (SELL, sell_qty) :: rest /\
    let result := update_account_for_trade account SELL sell_qty 50 None 2%nat in
    snd result = Done /\
    (5 <= stock_quantity account -> rest = [] /\ sell_qty = 5) /\
    (stock_quantity account < 5 ->
     rest = [(SHORT_SELL, 5 - stock_quantity account)] /\
     stock_quantity (fst result) == 0 /\
     long_positions (fst result)
       = close_long_positions (long_positions account) (stock_quantity account)).
Proof.
  apply (reversal_sells_whole_position_first
           (fst (update_account_for_trade sample_account BUY 2 50 None 1%nat))
           SHORT_SELL 5 50 None 2%nat).
  - right. reflexivity.
  - vm_compute. reflexivity.
  - vm_compute. reflexivity.
Defined.

(** X15: a BUY or COVER_SHORT decision on a short account is mapped to
    a COVER_SHORT leg that the ledger accepts whatever the price and the
    fees: the whole decision when it does not exceed the short position,
    and otherwise the whole short position, which leaves the account flat
    on the LONG side with no margin, followed by one BUY leg for the
    remainder. *)
Theorem reversal_covers_whole_position_first (account : VirtualAccount)
    (llm_act : TradeAction) (qty price : Q) (fees : option Fees) (now : nat) :
  llm_act = BUY \/ llm_act = COVER_SHORT ->
  stock_quantity account < 0 -> 0 < qty ->
  exists cover_qty rest,
    _map_decision_to_actions (stock_quantity account) llm_act qty
      = (COVER_SHORT, cover_qty) :: rest /\
    let result :=
      update_account_for_trade account COVER_SHORT cover_qty price fees now in
    snd result = Done /\
    (qty <= - stock_quantity account -> rest = [] /\ cover_qty = qty) /\
    (- stock_quantity account < qty ->
     rest = [(BUY, qty - Qabs (stock_quantity account))] /\
     stock_quantity (fst result) == 0 /\
     position_side (fst result) = LONG /\
     margin_used (fst result) == 0).
Proof.
  intros Hact Hshort Hq.
  assert (Habs : Qabs (stock_quantity account) == - stock_quantity account)
    by (apply Qabs_neg; lra).
  assert (Hmap :
    _map_decision_to_actions (stock_quantity account) llm_act qty
    = (COVER_SHORT, py_min qty (Qabs (stock_quantity account)))
      :: (if Qlt_le_dec 0 (qty - py_min qty (Qabs (stock_quantity account)))
          then [(BUY, qty - py_min qty (Qabs (stock_quantity account)))]
          else [])).
  { unfold _map_decision_to_actions.
    destruct Hact as [-> | ->];
      (destruct (Qlt_le_dec 0 (stock_quantity account)); [lra |]);
      (destruct (Qlt_le_dec (stock_quantity account) 0); [reflexivity | lra]). }
  rewrite Hmap. eexists _, _. split; [reflexivity |].
  cbv zeta. rewrite cover_short_unfold. cbv zeta.
  pose proof (py_min_le_r qty (Qabs (stock_quantity account))) as Hle.
  destruct (Qlt_le_dec 0 (stock_quantity account
                          + py_min qty (Qabs (stock_quantity account))))
    as [Hbad | Hok]; [lra |].
  cbn [fst snd]. split; [reflexivity |].
  destruct (py_min_cases qty (Qabs (stock_quantity account)))
    as [[He Hc] | [He Hc]].
  - split.
    + intros _. rewrite He.
      destruct (Qlt_le_dec 0 (qty - qty)); [lra | split; reflexivity].
    + intros Hlt. lra.
  - split.
    + intros Hqle. lra.
    + intros _. rewrite He.
      destruct (Qlt_le_dec 0 (qty - Qabs (stock_quantity account))); [| lra].
      split; [reflexivity |].
      rewrite commit_stock_quantity, commit_position_side, commit_margin_used.
      assert (Hz : quantize ROUND_HALF_UP
                     (stock_quantity account + Qabs (stock_quantity account))
                   == 0).
      { rewrite (quantize_comp _ _ 0) by (rewrite Habs; ring).
        apply quantize_zero. }
      split; [exact Hz |].
      destruct (Qlt_le_dec _ 0) as [Hneg | _]; [lra |].
      split; [reflexivity | apply quantize_zero].
Qed.

Lemma reversal_covers_whole_position_first_witness :
  exists cover_qty rest,
    _map_decision_to_actions (stock_quantity short_account) BUY 3
      = (COVER_SHORT, cover_qty) :: rest /\
    let result :=
      update_account_for_trade short_account COVER_SHORT cover_qty 50 None 2%nat in
    snd result = Done /\
    (3 <= - stock_quantity short_account -> rest = [] /\ cover_qty = 3) /\
    (- stock_quantity short_account < 3 ->
     rest = [(BUY, 3 - Qabs (stock_quantity short_account))] /\
     stock_quantity (fst result) == 0 /\
     position_side (fst result) = LONG /\
     margin_used (fst result) == 0).
Proof.
  apply (reversal_covers_whole_position_first short_account BUY 3 50 None 2%nat).
  - left. reflexivity.
  - vm_compute. reflexivity.
  - vm_compute. reflexivity.
Defined.

(** ** Stopping a run *)

Section RunnerStop.
Import BacktestProcessor.

Variable oracle : Ledger -> nat -> Q -> Ledger * attempt.
Variable prices : nat -> option Q.

Local Abbreviation single := (_execute_single_decision oracle prices).
Local Abbreviation loop := (backtest_loop oracle prices).

Lemma check_with_stop (r : nat -> option request) (i : nat) (s : Store) :
  r i = Some Stop -> status (task s) = RUNNING ->
  _check_task_status r i s
  = (mkStore (set_status CANCELLED (task s)) (ledger s), false).
Proof.
  intros Hr Hrun. unfold _check_task_status. rewrite Hr.
  cbn [apply_request]. unfold stop_task. rewrite Hrun. reflexivity.
Qed.

Lemma loop_stopped (k : nat) (pre : list nat) (dt : nat) (post : list nat) :
  forall i s,
    status (task s) = RUNNING ->
    (i + List.length pre)%nat = k ->
    loop (stop_at k) (pre ++ dt :: post) i s
    = let s' := loop no_requests pre i s in
      mkStore (set_status CANCELLED (task s')) (ledger s').
Proof.
  induction pre as [| d rest IH]; intros i s Hrun Hk; cbv zeta.
  - cbn [app backtest_loop List.length] in *.
    rewrite check_with_stop; [reflexivity | | assumption].
    unfold stop_at.
    replace (Nat.eqb i k) with true by (symmetry; apply Nat.eqb_eq; lia).
    reflexivity.
  - cbn [app List.length] in *.
    assert (Hnone : stop_at k i = None).
    { unfold stop_at.
      replace (Nat.eqb i k) with false by (symmetry; apply Nat.eqb_neq; lia).
      reflexivity. }
    rewrite (loop_step oracle prices (stop_at k)) by assumption.
    rewrite (loop_step oracle prices no_requests)
      by (try reflexivity; assumption).
    apply IH; [exact Hrun | lia].
Qed.

(** The ledger that the loop leaves depends on the ledger it starts from,
    not on the counters of the task. *)
Lemma loop_no_requests_ledger (l : list nat) :
  forall i j s s',
    status (task s) = RUNNING -> status (task s') = RUNNING ->
    ledger s = ledger s' ->
    ledger (loop no_requests l i s) = ledger (loop no_requests l j s').
Proof.
  induction l as [| dt rest IH]; intros i j s s' Hs Hs' Hl; [exact Hl |].
  rewrite !loop_step by (try reflexivity; assumption).
  apply IH; try assumption. cbn [ledger]. rewrite Hl. reflexivity.
Qed.

(** X16: a stop request seen at the poll before item [k] of a run
    started from PENDING or FAILED ends the run CANCELLED with [k] items
    counted and the total unchanged, and with the ledger that a completed
    run over the first [k] timestamps leaves; executing the cancelled task
    again, whatever the requests, marks it FAILED and touches neither the
    ledger nor the counter. *)
Theorem stop_request_cancels_run (dates : list nat) (s0 : Store)
    (now k : nat) :
  status (task s0) = PENDING \/ status (task s0) = FAILED ->
  (k < List.length dates)%nat ->
  let stopped := execute oracle dates prices (stop_at k) s0 now in
  let straight :=
    execute oracle (firstn k dates) prices no_requests s0 now in
  status (task stopped) = CANCELLED /\
  processed_items (task stopped) = k /\
  total_items (task stopped) = List.length dates /\
  ledger stopped = ledger straight /\
  status (task straight) = COMPLETED /\
  forall r now',
    let again := execute oracle dates prices r stopped now' in
    status (task again) = FAILED /\ ledger again = ledger stopped /\
    processed_items (task again) = k.
Proof.
  intros Hstart Hk. cbv zeta.
  assert (Hfresh : status (task s0) = PENDING \/ status (task s0) = FAILED \/
                   status (task s0) = RUNNING) by tauto.
  rewrite (run_fresh oracle dates prices (stop_at k) s0 now Hfresh).
  rewrite (run_fresh oracle (firstn k dates) prices no_requests s0 now Hfresh).
  assert (Hz : match status (task s0) with
               | RUNNING => processed_items (task s0)
               | _ => O
               end = O) by (destruct Hstart as [-> | ->]; reflexivity).
  rewrite Hz.
  destruct (skipn k dates) as [| dt post] eqn:Hskip.
  { pose proof (f_equal (@List.length nat) Hskip) as Hlen.
    rewrite length_skipn in Hlen. cbn in Hlen. lia. }
  assert (Hsplit : dates = firstn k dates ++ dt :: post)
    by (rewrite <- Hskip; symmetry; apply firstn_skipn).
  assert (Hpre : List.length (firstn k dates) = k)
    by (rewrite length_firstn; lia).
  set (pre := firstn k dates) in *.
  set (start := mkStore (mkTask RUNNING 0 (List.length dates) None)
                  (mkLedger (_reset_account (account (ledger s0)) now) [])).
  set (start' := mkStore (mkTask RUNNING 0 (List.length pre) None)
                   (mkLedger (_reset_account (account (ledger s0)) now) [])).
  fold start start'.
  replace (loop (stop_at k) dates 0 start)
    with (loop (stop_at k) (pre ++ dt :: post) 0 start)
    by (rewrite <- Hsplit; reflexivity).
  rewrite (loop_stopped k pre dt post 0 start eq_refl) by (cbn; lia).
  cbv zeta.
  destruct (loop_no_requests_task oracle prices pre 0 start eq_refl)
    as (Hst & Htot & _ & Hproc).
  destruct (loop_no_requests_task oracle prices pre 0 start' eq_refl)
    as (Hst' & _ & _ & _).
  pose proof (loop_no_requests_ledger pre 0 0 start start' eq_refl eq_refl
                eq_refl) as Hled.
  destruct (finalize_running _ Hst') as (Hc' & _ & Hl').
  set (s1 := loop no_requests pre 0 start) in *.
  set (s1' := loop no_requests pre 0 start') in *.
  assert (Hk' : processed_items (task s1) = k).
  { rewrite Hproc. destruct pre; cbn in *; lia. }
  unfold _finalize_backtest at 1 2 3 4.
  cbn [task status set_status processed_items total_items ledger].
  repeat split; try assumption.
  all: try (rewrite Hl'; exact Hled).
  all: unfold execute; cbn [task status set_status]; try reflexivity.
Qed.

End RunnerStop.

Lemma stop_request_cancels_run_witness :
  let run := BacktestProcessor.execute sample_decision_source in
  let stopped :=
    run [1; 2; 3]%nat (fun _ => Some 100) (stop_at 1) sample_store 0%nat in
  let straight :=
    run (firstn 1 [1; 2; 3]%nat) (fun _ => Some 100)
      BacktestProcessor.no_requests sample_store 0%nat in
  BacktestProcessor.status (BacktestProcessor.task stopped)
    = BacktestProcessor.CANCELLED /\
  BacktestProcessor.processed_items (BacktestProcessor.task stopped) = 1%nat /\
  BacktestProcessor.total_items (BacktestProcessor.task stopped)
    = List.length [1; 2; 3]%nat /\
  BacktestProcessor.ledger stopped = BacktestProcessor.ledger straight /\
  BacktestProcessor.status (BacktestProcessor.task straight)
    = BacktestProcessor.COMPLETED /\
  forall r now',
    let again :=
      run [1; 2; 3]%nat (fun _ => Some 100) r stopped now' in
    BacktestProcessor.status (BacktestProcessor.task again)
      = BacktestProcessor.FAILED /\
    BacktestProcessor.ledger again = BacktestProcessor.ledger stopped /\
    BacktestProcessor.processed_items (BacktestProcessor.task again) = 1%nat.
Proof.
  apply (stop_request_cancels_run sample_decision_source (fun _ => Some 100)
           [1; 2; 3]%nat sample_store 0%nat 1%nat).
  - left. reflexivity.
  - cbn. lia.
Defined.

Section RunnerRetries.
Import BacktestProcessor.

Variable oracle : Ledger -> nat -> Q -> Ledger * attempt.
Variable prices : nat -> option Q.

Lemma decision_retries_shape (n : nat) :
  forall l dt p,
    let trace := snd (decision_retries oracle n l dt p) in
    exists failed last,
      trace = failed ++ last /\
      forallb (fun a => negb (decided a)) failed = true /\
      ((last = [] /\ List.length failed = n) \/
       (exists a, last = [a] /\ decided a = true)).
Proof.
  induction n as [| n IH]; intros l dt p; cbv zeta; cbn [decision_retries].
  - exists [], []. cbn. auto.
  - destruct (oracle l dt p) as [l1 a].
    destruct (decided a) eqn:Hd.
    + exists [], [a]. cbn. eauto 6.
    + specialize (IH l1 dt p). cbv zeta in IH.
      destruct (decision_retries oracle n l1 dt p) as [l2 more].
      cbn [snd] in *. destruct IH as (failed & last & -> & Hall & Hlast).
      exists (a :: failed), last. cbn [app forallb List.length].
      rewrite Hd, Hall. split; [reflexivity |]. split; [reflexivity |].
      destruct Hlast as [[-> Hlen] | Hsome]; [left | right; exact Hsome].
      split; [reflexivity | rewrite Hlen; reflexivity].
Qed.

(** X17: at one timestamp the decision source is not called again after
    an attempt that returned a decision with its identifier: the attempts
    made are failed ones followed either by one successful attempt or by
    nothing, the latter only after three failures or when the timestamp
    has no price, in which case no attempt is made and the ledger is
    returned as it was. *)
Theorem retries_end_at_first_decision (l : Ledger) (dt : nat) :
  let trace := snd (_execute_single_decision oracle prices l dt) in
  (prices dt = None ->
   _execute_single_decision oracle prices l dt = (l, [])) /\
  exists failed last,
    trace = failed ++ last /\
    forallb (fun a => negb (decided a)) failed = true /\
    ((last = [] /\ (prices dt = None \/ List.length failed = 3%nat)) \/
     (exists a, last = [a] /\ decided a = true)).
Proof.
  cbv zeta. unfold _execute_single_decision. split.
  - intros ->. reflexivity.
  - destruct (prices dt) as [p |].
    + destruct (decision_retries_shape max_retries l dt p)
        as (failed & last & Ht & Hall & Hlast).
      exists failed, last. split; [exact Ht |]. split; [exact Hall |].
      destruct Hlast as [[-> Hlen] | Hsome]; [left | right; exact Hsome].
      split; [reflexivity | right; exact Hlen].
    + exists [], []. split; [reflexivity |]. split; [reflexivity |].
      left. split; [reflexivity | left; reflexivity].
Qed.

End RunnerRetries.

(** ** Return and drawdown *)



















(** ** Short lots and position *)




(** ** A validated short sale is accepted by the ledger *)

(** X21: a short sale that [validate_trade] accepts on an account that
    is not long is accepted by the ledger when executed with the fees of
    [calculate_trading_fees], and the position goes down by the quantity.
    The stored margin is not below the position valued at the trade price
    (as on a flat account) nor above the available balance; available
    balance, margin and minimum commission have at most eight fractional
    digits; the minimum commission and the rates are not negative. *)
Theorem validated_short_sell_is_accepted (account : VirtualAccount)
    (quantity price : Q) (now : nat) :
  stock_quantity account <= 0 ->
  margin_basis account price <= margin_used account ->
  margin_used account <= available_balance account ->
  is_q8 (available_balance account) -> is_q8 (margin_used account) ->
  is_q8 (min_commission account) -> 0 <= min_commission account ->
  0 <= commission_rate_buy account -> 0 <= commission_rate_sell account ->
  0 <= tax_rate account ->
  validate_trade account SHORT_SELL quantity price = true ->
  let fees := calculate_trading_fees SHORT_SELL quantity price account in
  let result := update_account_for_trade account SHORT_SELL quantity price
                  (Some fees) now in
  snd result = Done /\
  stock_quantity (fst result)
    = quantize ROUND_HALF_UP (stock_quantity account - quantity).
Proof.
  intros Hflat Hbasis Hfunds Ha Hmu Hm Hm0 Hrb Hrs Ht Hv. cbv zeta.
  unfold validate_trade, calculate_max_trade_quantity,
    calculate_max_reverse_short_quantity in Hv.
  destruct (Qlt_le_dec 0 price) as [Hp | ]; [| discriminate].
  destruct (Qlt_le_dec 0 quantity) as [Hq | ]; [| discriminate].
  destruct (Qlt_le_dec 0 (stock_quantity account)) as [Hlong | _]; [lra |].
  destruct (Qlt_le_dec (calculate_max_direct_short_sell_quantity account price)
              quantity) as [| Hle]; [discriminate |].
  assert (Hest : 0 <= quantize ROUND_UP
                        ((available_balance account - margin_used account)
                         / price)).
  { eapply Qle_trans; [| apply quantize_up_ge];
      apply Qle_shift_div_l; try exact Hp; lra. }
  assert (Hcost :
    quantize ROUND_HALF_UP (quantity * price)
    + fee_total (calculate_trading_fees SHORT_SELL quantity price account)
    <= (available_balance account - margin_used account)
       - min_commission account).
  { apply (direct_size_cost
             (fun x => fee_total
                         (calculate_trading_fees SHORT_SELL x price account)));
      try assumption.
    - apply is_q8_minus; assumption.
    - intros x. apply fee_is_q8, Hm.
    - eapply Qle_trans; [exact Hm0 |].
      apply fee_ge_min; [exact Ht |].
      apply Qmult_le_0_compat; [lra | exact Hest].
    - intros x y Hxy. apply fee_mono; try assumption. lra. }
  rewrite short_sell_unfold. cbv zeta.
  destruct (Qlt_le_dec _ _) as [Hraise | Hok].
  - cbn [fee_total] in *. lra.
  - cbn [fst snd]. split; [reflexivity |].
    rewrite commit_stock_quantity. reflexivity.
Qed.

Lemma validated_short_sell_is_accepted_witness :
  let fees := calculate_trading_fees SHORT_SELL 1 50000 sample_account in
  let result := update_account_for_trade sample_account SHORT_SELL 1 50000
                  (Some fees) 1%nat in
  snd result = Done /\
  stock_quantity (fst result)
    = quantize ROUND_HALF_UP (stock_quantity sample_account - 1).
Proof.
  apply (validated_short_sell_is_accepted sample_account 1 50000 1%nat).
  - vm_compute. discriminate.
  - vm_compute. discriminate.
  - vm_compute. discriminate.
  - exists 10000000000000%Z. vm_compute. reflexivity.
  - exists 0%Z. vm_compute. reflexivity.
  - exists 500000000%Z. vm_compute. reflexivity.
  - vm_compute. discriminate.
  - vm_compute. discriminate.
  - vm_compute. discriminate.
  - vm_compute. discriminate.
  - vm_compute. reflexivity.
Defined.

(** ** Resetting the account *)

(** X22: [_reset_account] puts the cash, the available balance and the
    total value back to the initial balance and empties the position, the
    margin and the lots, but keeps the accumulated fees and the last
    price; on the reset account the profit and loss is zero at every
    price, for an initial balance of at most eight fractional digits. *)
Theorem reset_account_is_flat (a : VirtualAccount) (now : nat) (price : Q) :
  is_q8 (initial_balance a) ->
  let a' := BacktestProcessor._reset_account a now in
  current_balance a' = initial_balance a /\
  available_balance a' = initial_balance a /\
  total_value a' = initial_balance a /\
  stock_quantity a' = 0 /\ margin_used a' = 0 /\
  long_positions a' = [] /\ short_positions a' = [] /\
  total_fees a' = total_fees a /\
  stock_price a' = stock_price a /\
  fst (calculate_profit_loss a' price) == 0 /\
  snd (calculate_profit_loss a' price) == 0.
Proof.
  intros Hib. cbv zeta.
  assert (Hpl : fst (calculate_profit_loss
                       (BacktestProcessor._reset_account a now) price) == 0 /\
                snd (calculate_profit_loss
                       (BacktestProcessor._reset_account a now) price) == 0).
  { unfold calculate_profit_loss, BacktestProcessor._reset_account.
    cbv zeta. ledger_simpl.
    destruct (Qeq_dec (initial_balance a) 0) as [Hz | Hnz]; cbn [fst snd].
    - split; apply quantize_zero.
    - assert (H0 : quantize ROUND_HALF_UP (0 * price) == 0)
        by (rewrite (quantize_comp _ _ 0) by ring; apply quantize_zero).
      assert (H1 : quantize ROUND_HALF_UP
                     (initial_balance a + quantize ROUND_HALF_UP (0 * price))
                   == initial_balance a).
      { rewrite (quantize_comp _ _ (initial_balance a)) by (rewrite H0; ring).
        apply quantize_exact, Hib. }
      assert (H2 : quantize ROUND_HALF_UP
                     (quantize ROUND_HALF_UP
                        (initial_balance a
                         + quantize ROUND_HALF_UP (0 * price))
                      - initial_balance a) == 0).
      { rewrite (quantize_comp _ _ 0) by (rewrite H1; ring).
        apply quantize_zero. }
      split; [exact H2 |].
      rewrite (quantize_comp _ _ 0); [apply quantize_zero |].
      rewrite H2. field. exact Hnz. }
  destruct Hpl as [Hp1 Hp2].
  repeat (split; [reflexivity |]). split; assumption.
Qed.

Lemma reset_account_is_flat_witness :
  let a' := BacktestProcessor._reset_account short_account 7%nat in
  current_balance a' = initial_balance short_account /\
  available_balance a' = initial_balance short_account /\
  total_value a' = initial_balance short_account /\
  stock_quantity a' = 0 /\ margin_used a' = 0 /\
  long_positions a' = [] /\ short_positions a' = [] /\
  total_fees a' = total_fees short_account /\
  stock_price a' = stock_price short_account /\
  fst (calculate_profit_loss a' 120) == 0 /\
  snd (calculate_profit_loss a' 120) == 0.
Proof.
  apply (reset_account_is_flat short_account 7%nat 120).
  exists 10000000000000%Z. vm_compute. reflexivity.
Defined.

(** ** Validation against the ledger on a short account *)

(** X23: validation is stricter than the ledger on a short account
    whose cash does not cover closing the whole position at the current
    price, fees included: [validate_trade] refuses every BUY or
    COVER_SHORT of a positive quantity, while the ledger accepts covering
    any part of the position, whatever the fees. *)
Theorem underfunded_short_cannot_cover (account : VirtualAccount)
    (action : TradeAction) (quantity price : Q) (fees : option Fees)
    (now : nat) :
  action = BUY \/ action = COVER_SHORT ->
  stock_quantity account < 0 ->
  0 < quantity -> quantity <= - stock_quantity account ->
  current_balance account
  < quantize ROUND_UP
      (Qabs (stock_quantity account) * price
       + fee_total (calculate_trading_fees COVER_SHORT
                      (Qabs (stock_quantity account)) price account)) ->
  validate_trade account action quantity price = false /\
  snd (update_account_for_trade account COVER_SHORT quantity price fees now)
    = Done.
Proof.
  intros Hact Hshort Hq Hle Hcash. split.
  - unfold validate_trade, calculate_max_trade_quantity,
      calculate_max_reverse_buy_quantity. cbv zeta.
    destruct Hact as [-> | ->];
      (destruct (Qlt_le_dec 0 price); [| reflexivity]);
      (destruct (Qlt_le_dec 0 quantity); [| reflexivity]);
      (destruct (Qlt_le_dec (stock_quantity account) 0); [| lra]);
      (destruct (Qlt_le_dec (current_balance account) _); [| lra]);
      (destruct (Qlt_le_dec 0 quantity); [reflexivity | lra]).
  - rewrite cover_short_unfold. cbv zeta.
    destruct (Qlt_le_dec 0 (stock_quantity account + quantity)); [lra |].
    reflexivity.
Qed.

Lemma underfunded_short_cannot_cover_witness :
  validate_trade short_account COVER_SHORT 1 200000 = false /\
  snd (update_account_for_trade short_account COVER_SHORT 1 200000 None 1%nat)
    = Done.
Proof.
  apply (underfunded_short_cannot_cover short_account COVER_SHORT 1 200000
           None 1%nat).
  - right. reflexivity.
  - vm_compute. reflexivity.
  - vm_compute. reflexivity.
  - vm_compute. discriminate.
  - vm_compute. reflexivity.
Defined.

(** ** Decision timestamps *)

Lemma filter_dates_nonzero (dates : list datetime) (tg : string) (n : Z) :
  n <> 0%Z ->
  filter_dates_by_interval dates tg n = Some (filter (on_interval tg n) dates).
Proof.
  intros Hn. apply Z.eqb_neq in Hn.
  induction dates as [| dt rest IH]; [reflexivity |].
  cbn [filter_dates_by_interval filter]. unfold on_interval at 1.
  rewrite IH, Hn.
  destruct (String.eqb tg "daily"); [reflexivity |].
  destruct (String.eqb tg "hourly"); cbv zeta.
  - destruct (Z.eqb (hour dt mod n) 0); reflexivity.
  - destruct (Z.eqb ((hour dt * 60 + minute dt) mod n) 0); reflexivity.
Qed.

Lemma filter_dates_daily (dates : list datetime) (n : Z) :
  filter_dates_by_interval dates "daily" n = Some dates.
Proof.
  induction dates as [| dt rest IH]; [reflexivity |].
  cbn [filter_dates_by_interval]. cbn [String.eqb Ascii.eqb Bool.eqb].
  cbn. rewrite IH. reflexivity.
Qed.

(** X24: with a non-zero interval the date filter keeps, in their
    order, exactly the timestamps that pass the interval test; daily
    granularity and an interval of 1 keep every timestamp; an interval of
    0 with any other granularity raises on a non-empty list; and hourly
    granularity with interval 24 keeps exactly the timestamps at hour 0,
    hours being between 0 and 23. *)
Theorem filter_dates_by_interval_spec (dates : list datetime) (tg : string)
    (n : Z) :
  (n <> 0%Z ->
   filter_dates_by_interval dates tg n
   = Some (filter (on_interval tg n) dates)) /\
  filter_dates_by_interval dates "daily" n = Some dates /\
  filter_dates_by_interval dates tg 1 = Some dates /\
  (tg <> "daily"%string -> dates <> [] ->
   filter_dates_by_interval dates tg 0 = None) /\
  (Forall (fun dt => (0 <= hour dt < 24)%Z) dates ->
   filter_dates_by_interval dates "hourly" 24
   = Some (filter (fun dt => Z.eqb (hour dt) 0) dates)).
Proof.
  split; [apply filter_dates_nonzero |].
  split; [apply filter_dates_daily |].
  split; [| split].
  - rewrite filter_dates_nonzero by discriminate. f_equal.
    induction dates as [| dt rest IH]; [reflexivity |].
    cbn [filter]. rewrite IH.
    unfold on_interval. rewrite !Z.mod_1_r.
    destruct (String.eqb tg "daily"); [reflexivity |].
    destruct (String.eqb tg "hourly"); reflexivity.
  - intros Htg Hne. destruct dates as [| dt rest]; [congruence |].
    cbn [filter_dates_by_interval].
    apply String.eqb_neq in Htg. rewrite Htg.
    destruct (String.eqb tg "hourly"); reflexivity.
  - intros Hall. rewrite filter_dates_nonzero by discriminate. f_equal.
    induction Hall as [| dt rest Hdt Hrest IH]; [reflexivity |].
    cbn [filter]. rewrite IH.
    unfold on_interval. cbn [String.eqb Ascii.eqb Bool.eqb].
    replace (String.eqb "hourly" "daily") with false by reflexivity.
    replace (String.eqb "hourly" "hourly") with true by reflexivity.
    rewrite Z.mod_small by lia. reflexivity.
Qed.
